(** * Verba document batch client: [scripts/parse-files.py]

    A shallow embedding of the batch client that walks an input tree,
    uploads every eligible document to the parsing API and mirrors the
    answers under [<output>/json] and [<output>/markdown].

    Conventions of the embedding.
    - A Python [str] is a [string] of 8-bit characters (the UTF-8 bytes of
      the text).  The three string operations the script relies on
      ([rfind('.')], [lower()] over the letters of the allowed extensions,
      [replace(' ', '_')]) only look at ASCII characters, which never occur
      inside a multi-byte sequence.
    - A [pathlib.Path] is the list of its components; [name], [suffix] and
      [stem] follow CPython's [PurePath] properties.
    - Effects are recorded as a trace of events (console lines, directory
      creations, file writes, uploads); a run either returns or raises.
      The output tree never refuses an [mkdir] or a write. *)

From Stdlib Require Import ZArith List String Ascii Bool Lia DecimalString.
From stdpp Require Import base gmap strings list.

Local Open Scope string_scope.
Local Open Scope list_scope.

(** ** Python string helpers *)

Module PyStr.

(** [c.lower()] on one ASCII character. *)
Definition lower_char (c : ascii) : ascii :=
  let n := nat_of_ascii c in
  if (65 <=? n)%nat && (n <=? 90)%nat then ascii_of_nat (n + 32) else c.

(** [s.lower()] *)
Fixpoint lower (s : string) : string :=
  match s with
  | EmptyString => EmptyString
  | String c s' => String (lower_char c) (lower s')
  end.

(** [s.rfind(c)]; [None] stands for Python's [-1]. *)
Fixpoint rfind (c : ascii) (s : string) : option nat :=
  match s with
  | EmptyString => None
  | String a s' =>
      match rfind c s' with
      | Some i => Some (S i)
      | None => if Ascii.eqb a c then Some 0%nat else None
      end
  end.

(** [s.replace(a, b)] for single characters [a] and [b]. *)
Fixpoint replace (a b : ascii) (s : string) : string :=
  match s with
  | EmptyString => EmptyString
  | String c s' => String (if Ascii.eqb c a then b else c) (replace a b s')
  end.

(** [s[:i]] and [s[i:]] for [0 <= i]. *)
Definition take (i : nat) (s : string) : string := String.substring 0 i s.
Definition drop (i : nat) (s : string) : string :=
  String.substring i (String.length s - i) s.

(** [s.rstrip(c)] for a single character [c]. *)
Fixpoint rstrip (c : ascii) (s : string) : string :=
  match s with
  | EmptyString => EmptyString
  | String a s' =>
      match rstrip c s' with
      | EmptyString => if Ascii.eqb a c then EmptyString else String a EmptyString
      | r => String a r
      end
  end.

End PyStr.

(** ** [pathlib] paths *)

Module PurePath.

(** A path is the list of its components, outermost first. *)
Definition t := list string.

(** [p.name]: the final component. *)
Definition name (p : t) : string := List.last p EmptyString.

(** [p.parent] *)
Definition parent (p : t) : t := List.removelast p.

(** [p / q] *)
Definition joinpath (p q : t) : t := p ++ q.

(** [PurePath.suffix] on the final component:
    [i = name.rfind('.')]; [name[i:]] when [0 < i < len(name) - 1],
    otherwise the empty string. *)
Definition suffix_of (nm : string) : string :=
  match PyStr.rfind "." nm with
  | Some i =>
      if (0 <? i)%nat && (i <? String.length nm - 1)%nat
      then PyStr.drop i nm else EmptyString
  | None => EmptyString
  end.

(** [PurePath.stem] on the final component: [name[:i]] under the same
    test, otherwise the whole name. *)
Definition stem_of (nm : string) : string :=
  match PyStr.rfind "." nm with
  | Some i =>
      if (0 <? i)%nat && (i <? String.length nm - 1)%nat
      then PyStr.take i nm else nm
  | None => nm
  end.

Definition suffix (p : t) : string := suffix_of (name p).
Definition stem (p : t) : string := stem_of (name p).

(** [p.relative_to(base)]; [None] stands for the [ValueError] raised when
    [base] is not a prefix of [p]. *)
Fixpoint relative_to (p base : t) {struct base} : option t :=
  match base, p with
  | [], _ => Some p
  | b :: base', c :: p' => if String.eqb b c then relative_to p' base' else None
  | _ :: _, [] => None
  end.

End PurePath.

Abbreviation Path := PurePath.t.

(** ** Module constants *)

(** [IGNORE_FILES = {'.DS_Store', 'Thumbs.db', '.gitignore'}] *)
Definition IGNORE_FILES : gset string :=
  {[ ".DS_Store"; "Thumbs.db"; ".gitignore" ]}.

(** [VALID_EXTENSIONS = {'.ppt', '.pptx', '.doc', '.docx', '.pdf', '.txt'}] *)
Definition VALID_EXTENSIONS : gset string :=
  {[ ".ppt"; ".pptx"; ".doc"; ".docx"; ".pdf"; ".txt" ]}.

(** The six extensions as the specification lists them, without the dot. *)
Definition allowed_extensions : list string :=
  ["ppt"; "pptx"; "doc"; "docx"; "pdf"; "txt"].

(** ** The file filter *)

(** [DocumentProcessor.should_process_file] *)
Definition should_process_file (file_path : Path) : bool :=
  if bool_decide (PurePath.name file_path ∈ IGNORE_FILES) then false
  else if negb (bool_decide (PyStr.lower (PurePath.suffix file_path) ∈ VALID_EXTENSIONS))
  then false
  else true.

(** [DocumentProcessor.get_safe_filename] *)
Definition get_safe_filename (filename : string) : string :=
  PyStr.replace " " "_" filename.

(** ** Parsed API answers *)

#[local] Set Warnings "-register-all".

(** The value [response.json()] returns.  A Python [float] is carried by
    its [repr] text, which determines it; a [dict] keeps its items in
    insertion order. *)
Inductive json : Type :=
| JNull
| JBool (b : bool)
| JInt (n : Z)
| JFloat (repr : string)
| JString (s : string)
| JArray (items : list json)
| JObject (fields : list (string * json)).

(** The exceptions that occur, with [str(e)]. *)
Inductive exn : Type :=
| ValueError (msg : string)
| TypeError (msg : string)
| KeyError (msg : string)
| OSError (msg : string)
| RequestError (msg : string).   (* aiohttp client errors and body decoding errors *)

Definition exn_str (e : exn) : string :=
  match e with
  | ValueError m | TypeError m | KeyError m | OSError m | RequestError m => m
  end.

Module Py.

(** [bool(v)]: the truth value Python's [if v:] tests. *)
Definition truthy (v : json) : bool :=
  match v with
  | JNull => false
  | JBool b => b
  | JInt n => negb (n =? 0)%Z
  | JFloat r => negb (String.eqb r "0.0" || String.eqb r "-0.0")
  | JString s => negb (String.eqb s EmptyString)
  | JArray items => match items with [] => false | _ => true end
  | JObject fields => match fields with [] => false | _ => true end
  end.

(** [type(v).__name__] *)
Definition type_name (v : json) : string :=
  match v with
  | JNull => "NoneType"
  | JBool _ => "bool"
  | JInt _ => "int"
  | JFloat _ => "float"
  | JString _ => "str"
  | JArray _ => "list"
  | JObject _ => "dict"
  end.

(** The type as the message of a bad argument names it: [None] for
    [None], the name of the type for every other value. *)
Definition arg_type_name (v : json) : string :=
  match v with
  | JNull => "None"
  | _ => type_name v
  end.

(** [d.get(k)] on the items of a [dict]. *)
Fixpoint dict_get (k : string) (fields : list (string * json)) : option json :=
  match fields with
  | [] => None
  | (k', v) :: rest => if String.eqb k' k then Some v else dict_get k rest
  end.

(** [v == JString s] for the elements of a list. *)
Definition is_str (s : string) (v : json) : bool :=
  match v with
  | JString s' => String.eqb s' s
  | _ => false
  end.

(** [sub in s] on strings. *)
Fixpoint str_contains (sub s : string) : bool :=
  String.prefix sub s
  || match s with
     | EmptyString => false
     | String _ s' => str_contains sub s'
     end.

(** [k in v]: membership as each Python type defines it, or the
    [TypeError] of a value that is not a container. *)
Definition contains (k : string) (v : json) : exn + bool :=
  match v with
  | JObject fields => inr (bool_decide (is_Some (dict_get k fields)))
  | JArray items => inr (existsb (is_str k) items)
  | JString s => inr (str_contains k s)
  | _ => inl (TypeError ("argument of type '" +:+ type_name v +:+ "' is not iterable"))
  end.

(** [v[k]] for a string key [k], or the exception it raises. *)
Definition getitem (k : string) (v : json) : exn + json :=
  match v with
  | JObject fields =>
      match dict_get k fields with
      | Some x => inr x
      | None => inl (KeyError ("'" +:+ k +:+ "'"))
      end
  | JArray _ => inl (TypeError "list indices must be integers or slices, not str")
  | JString _ => inl (TypeError "string indices must be integers, not 'str'")
  | _ => inl (TypeError ("'" +:+ type_name v +:+ "' object is not subscriptable"))
  end.

End Py.

(** ** [json.dumps(v, indent=2, ensure_ascii=False)] *)

Module Json.

Definition chr (n : nat) : string := String (ascii_of_nat n) EmptyString.

Definition quote : string := chr 34.
Definition backslash : string := chr 92.
Definition newline : string := chr 10.

Definition hex_digit (n : nat) : string :=
  if (n <? 10)%nat then chr (48 + n) else chr (87 + n).

(** One character of a string literal: the short escapes, a [u00XX]
    escape for the other control characters, everything else (non-ASCII
    bytes included) as it is. *)
Definition escape_char (c : ascii) : string :=
  let n := nat_of_ascii c in
  if (n =? 34)%nat then backslash +:+ quote
  else if (n =? 92)%nat then backslash +:+ backslash
  else if (n =? 8)%nat then backslash +:+ "b"
  else if (n =? 9)%nat then backslash +:+ "t"
  else if (n =? 10)%nat then backslash +:+ "n"
  else if (n =? 12)%nat then backslash +:+ "f"
  else if (n =? 13)%nat then backslash +:+ "r"
  else if (n <? 32)%nat
       then backslash +:+ "u00" +:+ hex_digit (n / 16) +:+ hex_digit (n mod 16)
  else String c EmptyString.

Fixpoint escape (s : string) : string :=
  match s with
  | EmptyString => EmptyString
  | String c s' => escape_char c +:+ escape s'
  end.

Definition encode_str (s : string) : string := quote +:+ escape s +:+ quote.

(** [int.__repr__] *)
Definition encode_int (n : Z) : string := NilZero.string_of_int (Z.to_int n).

(** [float.__repr__], with the three spellings of the non-finite values. *)
Definition encode_float (repr : string) : string :=
  if String.eqb repr "nan" then "NaN"
  else if String.eqb repr "inf" then "Infinity"
  else if String.eqb repr "-inf" then "-Infinity"
  else repr.

Fixpoint spaces (n : nat) : string :=
  match n with
  | O => EmptyString
  | S n' => " " +:+ spaces n'
  end.

(** [newline_indent] at nesting depth [level], two spaces per level. *)
Definition newline_indent (level : nat) : string :=
  newline +:+ spaces (2 * level).

(** The chunks of the items of a container, each after the first
    preceded by the item separator and the indentation. *)
Fixpoint join_items (sep : string) (chunks : list string) : string :=
  match chunks with
  | [] => EmptyString
  | [c] => c
  | c :: rest => c +:+ sep +:+ join_items sep rest
  end.

(** Encoding of [v] when it sits at nesting depth [level]. *)
Fixpoint encode (level : nat) (v : json) {struct v} : string :=
  match v with
  | JNull => "null"
  | JBool true => "true"
  | JBool false => "false"
  | JInt n => encode_int n
  | JFloat r => encode_float r
  | JString s => encode_str s
  | JArray [] => "[]"
  | JArray items =>
      "[" +:+ newline_indent (S level)
      +:+ join_items ("," +:+ newline_indent (S level))
            (List.map (encode (S level)) items)
      +:+ newline_indent level +:+ "]"
  | JObject [] => "{}"
  | JObject fields =>
      "{" +:+ newline_indent (S level)
      +:+ join_items ("," +:+ newline_indent (S level))
            (List.map (fun kv => encode_str (fst kv) +:+ ": " +:+ encode (S level) (snd kv))
               fields)
      +:+ newline_indent level +:+ "}"
  end.

Definition dumps (v : json) : string := encode 0 v.

End Json.
(** ** Effects *)

(** [str(path)] for an absolute path, and for a path relative to the
    input directory (POSIX spelling). *)
Definition render_rel (p : Path) : string :=
  match p with
  | [] => "."
  | _ => String.concat "/" p
  end.

Definition render (p : Path) : string := "/" +:+ String.concat "/" p.

(** [str(n)] for a count. *)
Definition str_nat (n : nat) : string := NilZero.string_of_uint (Nat.to_uint n).

(** What a run does to its surroundings, in order. *)
Inductive event : Type :=
| EvPrint (text : string)              (* a console line *)
| EvStderr (text : string)             (* the argument parser's error report *)
| EvMkdir (dir : Path)                 (* mkdir(parents=True, exist_ok=True) *)
| EvScan (dir : Path)                  (* rglob('*') under the directory *)
| EvOpen (file : Path)                 (* open(file, 'rb') *)
| EvPost (url : string) (filename : string)   (* one POST with the file *)
| EvWrite (file : Path) (content : string).   (* open(file, 'w') and its final content *)

Inductive outcome (A : Type) : Type :=
| Returned (a : A)
| Raised (e : exn).
Arguments Returned {A} a.
Arguments Raised {A} e.

(** A computation: the events it performs and how it ends. *)
Definition M (A : Type) : Type := list event * outcome A.

Definition ret {A} (a : A) : M A := ([], Returned a).
Definition raise {A} (e : exn) : M A := ([], Raised e).
Definition emit (ev : event) : M unit := ([ev], Returned tt).
Definition print (text : string) : M unit := emit (EvPrint text).

Definition bind {A B} (m : M A) (k : A -> M B) : M B :=
  match m with
  | (tr, Returned a) => let '(tr', r) := k a in (tr ++ tr', r)
  | (tr, Raised e) => (tr, Raised e)
  end.

(** [try: body / except Exception as e: handler(e)] *)
Definition try_except {A} (body : M A) (handler : exn -> M A) : M A :=
  match body with
  | (tr, Returned a) => (tr, Returned a)
  | (tr, Raised e) => let '(tr', r) := handler e in (tr ++ tr', r)
  end.

Declare Scope py_scope.
Delimit Scope py_scope with py.
Notation "x <- m ;; k" := (bind m (fun x => k))
  (at level 100, m at next level, right associativity) : py_scope.
Notation "m ;; k" := (bind m (fun _ => k))
  (at level 100, right associativity) : py_scope.
Local Open Scope py_scope.

Definition trace {A} (m : M A) : list event := fst m.
Definition result {A} (m : M A) : outcome A := snd m.

(** ** The surroundings of a run *)

(** An entry of the input tree. *)
Inductive node : Type :=
| File (name : string)                          (* a regular file *)
| Other (name : string)                         (* socket, fifo, dangling or directory symlink *)
| Dir (name : string) (children : list node).

Inductive kind : Type := KFile | KOther | KDir.

Definition node_name (n : node) : string :=
  match n with File nm | Other nm | Dir nm _ => nm end.

Definition node_kind (n : node) : kind :=
  match n with File _ => KFile | Other _ => KOther | Dir _ _ => KDir end.

(** What the server does with one upload. *)
Inductive upload_outcome : Type :=
| OpenFails (msg : string)        (* open(file_path, 'rb') raises *)
| PostFails (msg : string)        (* session.post raises *)
| Responds (status : Z) (body : string + json).
    (* the status, and what response.json() does: raise (inl) or return *)

Inductive entry : Type :=
| IsFile
| IsOther
| IsDir (children : list node).

Record world : Type := {
  w_resolve : string -> Path;        (* Path(os.path.expanduser(d)).resolve() *)
  w_stat : Path -> option entry;     (* what the file system holds at a path *)
  w_api : Path -> upload_outcome;    (* the answer to the upload of a file *)
}.

(** ** [DocumentProcessor] *)

Record DocumentProcessor : Type := {
  api_url : string;
  input_dir : Path;
  output_dir : Path;
  json_dir : Path;
  md_dir : Path;
}.

(** [Path.rglob('*')]: the children of the directory, then, for each
    sub-directory in turn, what the same walk finds below it. *)
Fixpoint rglob_below (base : Path) (n : node) {struct n} : list (Path * kind) :=
  match n with
  | Dir nm children =>
      let d := base ++ [nm] in
      List.map (fun c => (d ++ [node_name c], node_kind c)) children
      ++ List.flat_map (rglob_below d) children
  | _ => []
  end.

Definition rglob (base : Path) (e : option entry) : list (Path * kind) :=
  match e with
  | Some (IsDir children) =>
      List.map (fun c => (base ++ [node_name c], node_kind c)) children
      ++ List.flat_map (rglob_below base) children
  | _ => []
  end.

(** [Path.is_file()] on an enumerated entry. *)
Definition is_file (k : kind) : bool :=
  match k with KFile => true | _ => false end.

Section Processor.

Variable w : world.
Variable self : DocumentProcessor.

(** [DocumentProcessor.get_relative_path].  The message of the
    [ValueError] is that of CPython 3.11; the [repr] of a path is the path
    between single quotes (paths without quote, backslash or control
    character). *)
Definition get_relative_path (file_path : Path) : M Path :=
  match PurePath.relative_to file_path (input_dir self) with
  | Some rel => ret rel
  | None =>
      raise (ValueError ("'" +:+ render file_path +:+ "' is not in the subpath of '"
                         +:+ render (input_dir self)
                         +:+ "' OR one path is relative and the other is absolute."))
  end.

(** [DocumentProcessor.get_all_files] *)
Definition get_all_files : list Path :=
  List.map fst
    (List.filter (fun pk => is_file (snd pk) && should_process_file (fst pk))
       (rglob (input_dir self) (w_stat w (input_dir self)))).

(** [DocumentProcessor.process_single_file] *)
Definition process_single_file (file_path : Path) : M (option json) :=
  try_except
    (emit (EvOpen file_path) ;;
     match w_api w file_path with
     | OpenFails msg => raise (OSError msg)
     | PostFails msg =>
         emit (EvPost (api_url self +:+ "/parse_document/ppt") (PurePath.name file_path)) ;;
         raise (RequestError msg)
     | Responds status body =>
         emit (EvPost (api_url self +:+ "/parse_document/ppt") (PurePath.name file_path)) ;;
         if negb (status =? 200)%Z then
           print ("Error processing " +:+ render file_path +:+ ": "
                  +:+ Json.encode_int status) ;;
           ret None
         else
           match body with
           | inl msg => raise (RequestError msg)
           | inr v => ret (Some v)
           end
     end)
    (fun e =>
       print ("Error processing " +:+ render file_path +:+ ": " +:+ exn_str e) ;;
       ret None).

(** The path of the structured artifact and of the text artifact of a
    file whose path relative to the input directory is [rel_path]. *)
Definition json_path (file_path rel_path : Path) : Path :=
  (json_dir self ++ PurePath.parent rel_path)
  ++ [get_safe_filename (PurePath.stem file_path) +:+ ".json"].

Definition md_path (file_path rel_path : Path) : Path :=
  (md_dir self ++ PurePath.parent rel_path)
  ++ [get_safe_filename (PurePath.stem file_path) +:+ ".md"].

(** [DocumentProcessor.save_outputs] *)
Definition save_outputs (file_path : Path) (response_data : json) : M unit :=
  rel_path <- get_relative_path file_path ;;
  let json_subdir := json_dir self ++ PurePath.parent rel_path in
  let md_subdir := md_dir self ++ PurePath.parent rel_path in
  emit (EvMkdir json_subdir) ;;
  emit (EvMkdir md_subdir) ;;
  emit (EvWrite (json_path file_path rel_path) (Json.dumps response_data)) ;;
  match Py.contains "text" response_data with
  | inl e => raise e
  | inr false => ret tt
  | inr true =>
      (* the file is opened, and so emptied, before the value is looked at *)
      match Py.getitem "text" response_data with
      | inr (JString text) => emit (EvWrite (md_path file_path rel_path) text)
      | inr v =>
          emit (EvWrite (md_path file_path rel_path) EmptyString) ;;
          raise (TypeError ("write() argument must be str, not " +:+ Py.arg_type_name v))
      | inl e =>
          emit (EvWrite (md_path file_path rel_path) EmptyString) ;;
          raise e
      end
  end.

(** The body of the loop of [process_directory], for the files from
    position [idx] on. *)
Fixpoint process_files (total_files idx : nat) (files : list Path) : M unit :=
  match files with
  | [] => ret tt
  | file_path :: rest =>
      rel_path <- get_relative_path file_path ;;
      print ("Processing [" +:+ str_nat idx +:+ "/" +:+ str_nat total_files +:+ "]: "
             +:+ render_rel rel_path) ;;
      response_data <- process_single_file file_path ;;
      (* [if response_data:] on an [Optional] value *)
      match response_data with
      | Some v =>
          if Py.truthy v then
            save_outputs file_path v ;;
            print ("Successfully processed: " +:+ render_rel rel_path)
          else
            print ("Failed to process: " +:+ render_rel rel_path)
      | None =>
          print ("Failed to process: " +:+ render_rel rel_path)
      end ;;
      process_files total_files (S idx) rest
  end.

(** [DocumentProcessor.process_directory] *)
Definition process_directory : M unit :=
  emit (EvScan (input_dir self)) ;;
  let files := get_all_files in
  let total_files := List.length files in
  if (total_files =? 0)%nat then
    print ("No processable files found in " +:+ render (input_dir self))
  else
    print ("Found " +:+ str_nat total_files +:+ " files to process") ;;
    process_files total_files 1 files.

End Processor.

(** [DocumentProcessor.__init__] *)
Definition init (w : world) (url input output : string) : M DocumentProcessor :=
  let api := PyStr.rstrip "/" url in
  let inp := w_resolve w input in
  let out := w_resolve w output in
  if negb (bool_decide (is_Some (w_stat w inp))) then
    raise (ValueError ("Input directory does not exist: " +:+ render inp))
  else
    emit (EvMkdir out) ;;
    emit (EvMkdir (out ++ ["json"])) ;;
    emit (EvMkdir (out ++ ["markdown"])) ;;
    print ("Input directory: " +:+ render inp) ;;
    print ("Output directory: " +:+ render out) ;;
    ret {| api_url := api; input_dir := inp; output_dir := out;
           json_dir := out ++ ["json"]; md_dir := out ++ ["markdown"] |}.

(** ** The command line *)

(** The options as they were typed; [None] for an option left out. *)
Record cmdline : Type := {
  opt_api_url : option string;
  opt_input_dir : option string;
  opt_output_dir : option string;
}.

(** The namespace [parse_args] returns. *)
Record namespace : Type := {
  ns_api_url : string;
  ns_input_dir : string;
  ns_output_dir : string;
}.

(** Scheme and network location as [urllib.parse.urlparse] splits them off
    (CPython 3.11); [None] stands for its [ValueError] on unbalanced
    brackets in the network location.  Two further checks of CPython, which
    turn some URLs into a [ValueError], are left out: that a host between
    brackets is an IPv6 or IPvFuture address, and the NFKC check of a
    network location with characters outside ASCII.  The model is the
    library's on every URL without bracket and without such characters. *)
Module Urllib.

Definition is_alpha (c : ascii) : bool :=
  let n := nat_of_ascii c in
  ((65 <=? n) && (n <=? 90) || (97 <=? n) && (n <=? 122))%nat.

Definition is_scheme_char (c : ascii) : bool :=
  let n := nat_of_ascii c in
  (is_alpha c || (48 <=? n) && (n <=? 57) || (n =? 43) || (n =? 45) || (n =? 46))%nat.

Fixpoint all_chars (f : ascii -> bool) (s : string) : bool :=
  match s with
  | EmptyString => true
  | String c s' => f c && all_chars f s'
  end.

Fixpoint has_char (c : ascii) (s : string) : bool :=
  match s with
  | EmptyString => false
  | String a s' => Ascii.eqb a c || has_char c s'
  end.

(** [url.lstrip] of the C0 control characters and the space. *)
Fixpoint lstrip_c0 (s : string) : string :=
  match s with
  | String c s' => if (nat_of_ascii c <=? 32)%nat then lstrip_c0 s' else s
  | EmptyString => EmptyString
  end.

(** Removal of tab, carriage return and line feed. *)
Fixpoint remove_unsafe (s : string) : string :=
  match s with
  | EmptyString => EmptyString
  | String c s' =>
      let n := nat_of_ascii c in
      if ((n =? 9) || (n =? 10) || (n =? 13))%nat then remove_unsafe s'
      else String c (remove_unsafe s')
  end.

(** [s.find(c)] *)
Fixpoint find (c : ascii) (s : string) : option nat :=
  match s with
  | EmptyString => None
  | String a s' =>
      if Ascii.eqb a c then Some 0%nat
      else match find c s' with Some i => Some (S i) | None => None end
  end.

(** The text before the first of [/], [?] and [#]. *)
Fixpoint upto_delim (s : string) : string :=
  match s with
  | EmptyString => EmptyString
  | String c s' =>
      if Ascii.eqb c "/" || Ascii.eqb c "?" || Ascii.eqb c "#" then EmptyString
      else String c (upto_delim s')
  end.

Definition split_scheme (url : string) : string * string :=
  match find ":" url, url with
  | Some (S i), String c _ =>
      if is_alpha c && all_chars is_scheme_char (PyStr.take (S i) url)
      then (PyStr.lower (PyStr.take (S i) url), PyStr.drop (S (S i)) url)
      else (EmptyString, url)
  | _, _ => (EmptyString, url)
  end.

Definition urlparse (url : string) : option (string * string) :=
  let '(scheme, rest) := split_scheme (remove_unsafe (lstrip_c0 url)) in
  if String.prefix "//" rest then
    let netloc := upto_delim (PyStr.drop 2 rest) in
    if xorb (has_char "[" netloc) (has_char "]" netloc) then None
    else Some (scheme, netloc)
  else Some (scheme, EmptyString).

(** [s.rpartition(c)[2]], [s.partition(c)[0]] and [s.partition(c)[2]]. *)
Definition after_last (c : ascii) (s : string) : string :=
  match PyStr.rfind c s with
  | Some i => PyStr.drop (S i) s
  | None => s
  end.

Definition before_first (c : ascii) (s : string) : string :=
  match find c s with
  | Some i => PyStr.take i s
  | None => s
  end.

Definition after_first (c : ascii) (s : string) : string :=
  match find c s with
  | Some i => PyStr.drop (S i) s
  | None => EmptyString
  end.

(** The [hostname] attribute of a parse result, from its network
    location: what follows the user information, up to the port, without
    brackets; [None] when that is empty. *)
Definition hostname (netloc : string) : option string :=
  let hostinfo := after_last "@" netloc in
  let host :=
    if has_char "[" hostinfo
    then before_first "]" (after_first "[" hostinfo)
    else before_first ":" hostinfo in
  if String.eqb host EmptyString then None
  else Some (PyStr.lower (before_first "%" host)
             +:+ match find "%" host with
                 | Some i => PyStr.drop i host
                 | None => EmptyString
                 end).

End Urllib.

Section Main.

(** [urllib.parse.urlparse], reduced to the two fields the script reads. *)
Variable urlparse : string -> option (string * string).

(** [validate_url]: the URL, or the message of the
    [argparse.ArgumentTypeError] it raises. *)
Definition validate_url (url : string) : string + string :=
  match urlparse url with
  | Some (scheme, netloc) =>
      if negb (String.eqb scheme EmptyString) && negb (String.eqb netloc EmptyString)
      then inr url
      else inl ("Invalid URL format: " +:+ url)
  | None => inl ("Invalid URL format: " +:+ url)
  end.

(** [parser.parse_args()]: the namespace, or the message with which the
    parser reports an error and leaves the process with status 2.  A
    value is converted when its option is read; required options are
    checked afterwards. *)
Definition parse_args (c : cmdline) : string + namespace :=
  match
    match opt_api_url c with
    | Some u =>
        match validate_url u with
        | inr u' => inr (Some u')
        | inl msg => inl ("argument --api-url: " +:+ msg)
        end
    | None => inr None
    end
  with
  | inl msg => inl msg
  | inr api =>
      match api, opt_input_dir c with
      | Some u, Some d =>
          inr {| ns_api_url := u; ns_input_dir := d;
                 ns_output_dir := match opt_output_dir c with
                                  | Some o => o
                                  | None => "output"
                                  end |}
      | None, Some _ => inl "the following arguments are required: --api-url"
      | Some _, None => inl "the following arguments are required: --input-dir"
      | None, None => inl "the following arguments are required: --api-url, --input-dir"
      end
  end.

(** The body of [main] after the arguments are parsed: its return value. *)
Definition main_run (w : world) (args : namespace) : M Z :=
  caught <- try_except
              (processor <- init w (ns_api_url args) (ns_input_dir args)
                              (ns_output_dir args) ;;
               process_directory w processor ;;
               ret None)
              (fun e =>
                 match e with
                 | ValueError _ => print ("Error: " +:+ exn_str e) ;; ret (Some 1%Z)
                 | _ => print ("Unexpected error: " +:+ exn_str e) ;; ret (Some 1%Z)
                 end) ;;
  match caught with
  | Some code => ret code
  | None => ret 0%Z
  end.

(** [exit(main())]: the events of the whole process and its exit status. *)
Definition main (w : world) (c : cmdline) : list event * Z :=
  match parse_args c with
  | inl msg => ([EvStderr ("error: " +:+ msg)], 2%Z)
  | inr args =>
      match main_run w args with
      | (tr, Returned code) => (tr, code)
      | (tr, Raised e) => (tr ++ [EvStderr (exn_str e)], 1%Z)
      end
  end.

End Main.

(** ** The output tree *)

(** The files of the output tree with their contents. *)
Abbreviation store := (gmap (list string) string).

Definition apply_event (s : store) (ev : event) : store :=
  match ev with
  | EvWrite file content => <[file := content]> s
  | _ => s
  end.

(** The output tree after the events of a run. *)
Definition replay (tr : list event) (s : store) : store :=
  List.fold_left apply_event tr s.

(** The paths a trace writes to, the uploads it starts. *)
Definition writes (tr : list event) : list (Path * string) :=
  List.flat_map (fun ev => match ev with EvWrite f c => [(f, c)] | _ => [] end) tr.

Definition uploads (tr : list event) : list Path :=
  List.flat_map (fun ev => match ev with EvOpen f => [f] | _ => [] end) tr.

Definition scans (tr : list event) : list Path :=
  List.flat_map (fun ev => match ev with EvScan d => [d] | _ => [] end) tr.

Definition mkdirs (tr : list event) : list Path :=
  List.flat_map (fun ev => match ev with EvMkdir d => [d] | _ => [] end) tr.

Definition prints (tr : list event) : list string :=
  List.flat_map (fun ev => match ev with EvPrint t => [t] | _ => [] end) tr.

(** The requests a trace sends: the URL and the file name of the form. *)
Definition posts (tr : list event) : list (string * string) :=
  List.flat_map (fun ev => match ev with EvPost u f => [(u, f)] | _ => [] end) tr.


(** A statement about the files a run writes, as a statement about its
    events. *)
Definition on_writes (Q : Path -> Prop) (ev : event) : Prop :=
  match ev with
  | EvWrite file _ => Q file
  | _ => True
  end.

(** The files a trace writes. *)
Definition written_by (tr : list event) (file : Path) : Prop :=
  exists content, In (file, content) (writes tr).

(** [grown new base children children']: the directory [base] held
    [children] and now holds [children'].  Every old entry is still there,
    in the old order and of the old kind; entries were added, in this
    directory or in directories below it, at any place of the listings, and
    every regular file among the added entries is one of [new]. *)
Inductive grown (new : Path -> Prop) : Path -> list node -> list node -> Prop :=
| grown_nil base : grown new base [] []
| grown_same base n cs cs' :
    grown new base cs cs' -> grown new base (n :: cs) (n :: cs')
| grown_dir base nm sub sub' cs cs' :
    grown new (base ++ [nm]) sub sub' -> grown new base cs cs' ->
    grown new base (Dir nm sub :: cs) (Dir nm sub' :: cs')
| grown_add base n cs cs' :
    (forall p, In (p, KFile) ((base ++ [node_name n], node_kind n) :: rglob_below base n)
               -> new p) ->
    grown new base cs cs' -> grown new base cs (n :: cs').

(** [rerun_world new input w1 w2]: the world [w2] is the world [w1] after
    a run that wrote the files [new]: paths resolve as before, the API
    answers as before, and the input path holds what it held, grown by
    what the run created when the output directory lies inside it. *)
Definition rerun_world (new : Path -> Prop) (input : Path) (w1 w2 : world) : Prop :=
  (forall d, w_resolve w2 d = w_resolve w1 d)
  /\ (forall p, w_api w2 p = w_api w1 p)
  /\ match w_stat w1 input with
     | Some (IsDir children) =>
         exists children', w_stat w2 input = Some (IsDir children')
                           /\ grown new input children children'
     | other => w_stat w2 input = other
     end.

(** [n] copies of the character [c]. *)
Fixpoint repeat_char (c : ascii) (n : nat) : string :=
  match n with
  | O => EmptyString
  | S n' => String c (repeat_char c n')
  end.

(** ** Notions used in the statements *)

(** [reachable children rel k]: below a directory with these children, the
    relative path [rel] leads through sub-directories to an entry of kind
    [k]. *)
Inductive reachable : list node -> Path -> kind -> Prop :=
| reach_child children n :
    In n children -> reachable children [node_name n] (node_kind n)
| reach_below children nm sub rel k :
    In (Dir nm sub) children -> reachable sub rel k ->
    reachable children (nm :: rel) k.

(** Entries of one directory have distinct names, all the way down. *)
Inductive wf_node : node -> Prop :=
| wf_File nm : wf_node (File nm)
| wf_Other nm : wf_node (Other nm)
| wf_Dir nm children :
    List.NoDup (List.map node_name children) ->
    List.Forall wf_node children ->
    wf_node (Dir nm children).

(** Induction on a tree with the hypothesis for every child. *)
Fixpoint node_tree_ind (P : node -> Prop)
    (HF : forall nm, P (File nm)) (HO : forall nm, P (Other nm))
    (HD : forall nm children, Forall P children -> P (Dir nm children))
    (n : node) {struct n} : P n :=
  match n with
  | File nm => HF nm
  | Other nm => HO nm
  | Dir nm children =>
      HD nm children
        ((fix go (l : list node) : Forall P l :=
            match l with
            | [] => @List.Forall_nil node P
            | c :: l' => @List.Forall_cons node P c l' (node_tree_ind P HF HO HD c) (go l')
            end) children)
  end.

Definition rglob_children (base : Path) (children : list node) : list (Path * kind) :=
  List.map (fun c => (base ++ [node_name c], node_kind c)) children
  ++ List.flat_map (rglob_below base) children.

(** The part of [save_outputs] after the structured artifact is written. *)
Definition save_text (self : DocumentProcessor) (file_path rel_path : Path)
    (response_data : json) : M unit :=
  match Py.contains "text" response_data with
  | inl e => raise e
  | inr false => ret tt
  | inr true =>
      match Py.getitem "text" response_data with
      | inr (JString text) => emit (EvWrite (md_path self file_path rel_path) text)
      | inr v =>
          (emit (EvWrite (md_path self file_path rel_path) EmptyString) ;;
           raise (TypeError ("write() argument must be str, not " +:+ Py.arg_type_name v)))%py
      | inl e =>
          (emit (EvWrite (md_path self file_path rel_path) EmptyString) ;; raise e)%py
      end
  end.

(** Why an upload yields no result: the exception text or the status that
    is not 200; [None] for a status 200 with a body that parses. *)
Definition failure_reason (o : upload_outcome) : option string :=
  match o with
  | OpenFails msg => Some msg
  | PostFails msg => Some msg
  | Responds status body =>
      if negb (status =? 200)%Z then Some (Json.encode_int status)
      else match body with
           | inl msg => Some msg
           | inr _ => None
           end
  end.

(** A small world for examples: the tree of the specification's scenario
    under [/in], every upload answered by [api]. *)
Definition scenario_tree : list node :=
  [Dir "A" [File "report.pptx"; File "notes.txt"]; Dir "B" [File "skip.ini"]].

Definition mk_world (tree : list node) (api : Path -> upload_outcome) : world :=
  {| w_resolve := fun d => [d];
     w_stat := fun p => if bool_decide (p = ["in"]) then Some (IsDir tree) else None;
     w_api := api |}.

Definition scenario_api (p : Path) : upload_outcome :=
  if bool_decide (p = ["in"; "A"; "report.pptx"])
  then Responds 200 (inr (JObject [("text", JString "hello")]))
  else Responds 200 (inr (JObject [("summary", JString "ok")])).

Definition scenario_world : world := mk_world scenario_tree scenario_api.

Definition scenario_self : DocumentProcessor :=
  {| api_url := "http://localhost:8000"; input_dir := ["in"]; output_dir := ["output"];
     json_dir := ["output"; "json"]; md_dir := ["output"; "markdown"] |}.

(** A world in which the upload of [A/report.pptx] is answered with
    status 500. *)
Definition failing_api (p : Path) : upload_outcome :=
  if bool_decide (p = ["in"; "A"; "report.pptx"])
  then Responds 500 (inr JNull)
  else scenario_api p.

(** A world with two files whose safe stems collide. *)
Definition collision_api (p : Path) : upload_outcome :=
  if bool_decide (p = ["in"; "a b.txt"])
  then Responds 200 (inr (JObject [("n", JInt 1)]))
  else Responds 200 (inr (JObject [("n", JInt 2)])).

Definition collision_world : world :=
  mk_world [File "a b.txt"; File "a_b.txt"] collision_api.

(** The processor [__init__] builds from the parsed arguments. *)
Definition processor_of (w : world) (args : namespace) : DocumentProcessor :=
  {| api_url := PyStr.rstrip "/" (ns_api_url args);
     input_dir := w_resolve w (ns_input_dir args);
     output_dir := w_resolve w (ns_output_dir args);
     json_dir := w_resolve w (ns_output_dir args) ++ ["json"];
     md_dir := w_resolve w (ns_output_dir args) ++ ["markdown"] |}.

(** The results Python takes for false. *)
Definition falsy_results : list json :=
  [JNull; JBool false; JInt 0; JFloat "0.0"; JFloat "-0.0"; JString EmptyString;
   JArray []; JObject []].

(** A world in which every upload is answered with an object whose [text]
    is a number. *)
Definition bad_text_world : world :=
  mk_world scenario_tree (fun _ => Responds 200 (inr (JObject [("text", JInt 5)]))).

(** An address with a scheme and a port but no host. *)
Definition no_host_cmd : cmdline :=
  {| opt_api_url := Some "http://:8000"; opt_input_dir := Some "in";
     opt_output_dir := None |}.

(** A world whose output directory [out] lies inside the input directory
    [in], before and after a first run. *)
Definition nested_cmd : cmdline :=
  {| opt_api_url := Some "http://localhost:8000"; opt_input_dir := Some "in";
     opt_output_dir := Some "out" |}.

Definition nested_world (tree : list node) : world :=
  {| w_resolve := fun d => if String.eqb d "out" then ["in"; "out"] else [d];
     w_stat := fun p => if bool_decide (p = ["in"]) then Some (IsDir tree) else None;
     w_api := scenario_api |}.

Definition nested_tree_before : list node :=
  [Dir "A" [File "report.pptx"; File "notes.txt"]].

Definition nested_tree_after : list node :=
  [Dir "A" [File "report.pptx"; File "notes.txt"];
   Dir "out" [Dir "json" [Dir "A" [File "report.json"; File "notes.json"]];
              Dir "markdown" [Dir "A" [File "report.md"]]]].

Definition bad_url_cmd : cmdline :=
  {| opt_api_url := Some "not-a-url"; opt_input_dir := Some "in";
     opt_output_dir := None |}.

Definition missing_dir_cmd : cmdline :=
  {| opt_api_url := Some "http://localhost:8000"; opt_input_dir := Some "nowhere";
     opt_output_dir := None |}.

Definition scenario_cmd : cmdline :=
  {| opt_api_url := Some "http://localhost:8000/"; opt_input_dir := Some "in";
     opt_output_dir := None |}.

(** * Properties *)

(** ** Paths and names *)

Example suffix_ex1 : PurePath.suffix_of "Report.PPTX" = ".PPTX".
Proof. reflexivity. Qed.
Example suffix_ex2 : PurePath.suffix_of ".txt" = EmptyString.
Proof. reflexivity. Qed.
Example suffix_ex3 : PurePath.suffix_of "a.tar.gz" = ".gz".
Proof. reflexivity. Qed.
Example suffix_ex4 : PurePath.suffix_of "a." = EmptyString.
Proof. reflexivity. Qed.
Example stem_ex1 : PurePath.stem_of "my deck.v2.pptx" = "my deck.v2".
Proof. reflexivity. Qed.
Example filter_ex1 : should_process_file ["A"; "Report.PPTX"] = true.
Proof. vm_compute. reflexivity. Qed.
Example filter_ex2 : should_process_file ["B"; "skip.ini"] = false.
Proof. vm_compute. reflexivity. Qed.
Example rstrip_ex : PyStr.rstrip "/" "http://h:8000//" = "http://h:8000".
Proof. reflexivity. Qed.

Lemma relative_to_app (base rel : Path) :
  PurePath.relative_to (base ++ rel) base = Some rel.
Proof.
  induction base as [|b base IH]; simpl; [reflexivity|].
  rewrite String.eqb_refl. exact IH.
Qed.

Lemma name_app (base rel : Path) :
  rel <> [] -> PurePath.name (base ++ rel) = PurePath.name rel.
Proof.
  intros Hrel. unfold PurePath.name.
  induction base as [|b base IH]; simpl; [reflexivity|].
  destruct (base ++ rel) eqn:E; [|exact IH].
  apply app_eq_nil in E. destruct E; contradiction.
Qed.

Lemma name_snoc (dir : Path) (nm : string) : PurePath.name (dir ++ [nm]) = nm.
Proof. unfold PurePath.name. apply last_last. Qed.

Lemma parent_snoc (dir : Path) (nm : string) : PurePath.parent (dir ++ [nm]) = dir.
Proof. unfold PurePath.parent. apply removelast_last. Qed.

(** The filter only looks at the final component. *)
Lemma should_process_file_name (p q : Path) :
  PurePath.name p = PurePath.name q -> should_process_file p = should_process_file q.
Proof.
  intros H. unfold should_process_file, PurePath.suffix. rewrite H. reflexivity.
Qed.

Lemma elem_of_VALID_EXTENSIONS (s : string) :
  s ∈ VALID_EXTENSIONS <-> exists e, In e allowed_extensions /\ s = "." +:+ e.
Proof.
  unfold VALID_EXTENSIONS, allowed_extensions. split.
  - rewrite !elem_of_union, !elem_of_singleton.
    intros H. repeat destruct H as [H|H]; subst s;
      eexists; (split; [|reflexivity]); simpl; tauto.
  - intros (e & Hin & ->). simpl in Hin.
    repeat destruct Hin as [<-|Hin]; try contradiction; set_solver.
Qed.

Lemma should_process_file_true (p : Path) :
  should_process_file p = true <->
  (PurePath.name p ∉ IGNORE_FILES) /\ (PyStr.lower (PurePath.suffix p) ∈ VALID_EXTENSIONS).
Proof.
  unfold should_process_file.
  repeat case_bool_decide; simpl; split; try discriminate; try tauto.
Qed.

(** ** The walk of the input tree *)

Lemma rglob_below_Dir base nm children :
  rglob_below base (Dir nm children) = rglob_children (base ++ [nm]) children.
Proof. reflexivity. Qed.

Lemma rglob_IsDir base children :
  rglob base (Some (IsDir children)) = rglob_children base children.
Proof. reflexivity. Qed.

Lemma reachable_nonempty children rel k : reachable children rel k -> rel <> [].
Proof. intros H. destruct H; discriminate. Qed.

(** The walk finds exactly the reachable entries. *)
Lemma rglob_below_spec (n : node) :
  forall base p k,
    In (p, k) (rglob_below base n) <->
    exists nm children rel,
      n = Dir nm children /\ p = base ++ nm :: rel /\ reachable children rel k.
Proof.
  induction n as [nm|nm|nm children IH] using node_tree_ind; intros base p k.
  - simpl. split; [tauto|]. intros (? & ? & ? & ? & _). discriminate.
  - simpl. split; [tauto|]. intros (? & ? & ? & ? & _). discriminate.
  - rewrite rglob_below_Dir. unfold rglob_children.
    rewrite in_app_iff, in_map_iff, in_flat_map. split.
    + intros [(c & Hc & Hin)|(c & Hin & Hc)].
      * inversion Hc; subst. exists nm, children, [node_name c].
        rewrite <- app_assoc. repeat split. now constructor.
      * rewrite List.Forall_forall in IH. apply (IH c Hin) in Hc.
        destruct Hc as (nm' & sub & rel & -> & -> & Hr).
        exists nm, children, (nm' :: rel). rewrite <- app_assoc.
        repeat split. econstructor 2; eauto.
    + intros (nm0 & ch0 & rel & Heq & -> & Hr). inversion Heq; subst nm0 ch0.
      inversion Hr as [ch n Hin|ch nm' sub rel' k' Hin Hr']; subst.
      * left. exists n. rewrite <- app_assoc. split; [reflexivity|assumption].
      * right. exists (Dir nm' sub). split; [assumption|].
        rewrite List.Forall_forall in IH. apply (IH _ Hin).
        exists nm', sub, rel'. rewrite <- app_assoc. repeat split. assumption.
Qed.

Lemma rglob_children_spec base children p k :
  In (p, k) (rglob_children base children) <->
  exists rel, p = base ++ rel /\ reachable children rel k.
Proof.
  unfold rglob_children. rewrite in_app_iff, in_map_iff, in_flat_map. split.
  - intros [(c & Hc & Hin)|(c & Hin & Hc)].
    + inversion Hc; subst. eexists. split; [reflexivity|]. now constructor.
    + apply rglob_below_spec in Hc. destruct Hc as (nm & sub & rel & -> & -> & Hr).
      exists (nm :: rel). split; [reflexivity|]. econstructor 2; eauto.
  - intros (rel & -> & Hr).
    inversion Hr as [ch n Hin|ch nm' sub rel' k' Hin Hr']; subst.
    + left. exists n. split; [reflexivity|assumption].
    + right. exists (Dir nm' sub). split; [assumption|].
      apply rglob_below_spec. exists nm', sub, rel'. repeat split. assumption.
Qed.

Lemma NoDup_map_inj {A B} (f : A -> B) (l : list A) (a b : A) :
  List.NoDup (List.map f l) -> In a l -> In b l -> f a = f b -> a = b.
Proof.
  induction l as [|x l IH]; simpl; [tauto|].
  intros Hnd Ha Hb Hf. inversion Hnd as [|? ? Hx Hnd']; subst.
  destruct Ha as [->|Ha], Hb as [->|Hb]; try reflexivity.
  - exfalso. apply Hx. rewrite Hf. now apply in_map.
  - exfalso. apply Hx. rewrite <- Hf. now apply in_map.
  - now apply IH.
Qed.

(** In a well-formed tree a relative path names one entry. *)
Lemma reachable_kind_unique children rel k1 :
  reachable children rel k1 ->
  List.NoDup (List.map node_name children) -> List.Forall wf_node children ->
  forall k2, reachable children rel k2 -> k1 = k2.
Proof.
  induction 1 as [children n Hin|children nm sub rel k Hin Hr IH];
    intros Hnd Hwf k2 H2.
  - inversion H2 as [ch n2 Hin2 Heq|ch nm' sub' rel' k' Hin2 Hr2 Heq]; subst.
    + assert (n = n2) as ->
        by (eapply NoDup_map_inj with (f := node_name); eauto).
      reflexivity.
    + apply reachable_nonempty in Hr2. contradiction.
  - inversion H2 as [ch n2 Hin2 Heq|ch nm' sub' rel' k' Hin2 Hr2 Heq]; subst.
    + apply reachable_nonempty in Hr. contradiction.
    + assert (Dir nm sub = Dir nm sub') as Heq
        by (eapply NoDup_map_inj with (f := node_name); eauto).
      inversion Heq; subst sub'.
      rewrite List.Forall_forall in Hwf. specialize (Hwf _ Hin).
      inversion Hwf; subst. now apply IH.
Qed.

(** ** Discovery *)

(** What [get_all_files] returns, entry by entry. *)
Lemma get_all_files_spec (w : world) (self : DocumentProcessor) (children : list node)
    (p : Path) :
  w_stat w (input_dir self) = Some (IsDir children) ->
  (In p (get_all_files w self) <->
   exists rel, p = input_dir self ++ rel /\ reachable children rel KFile
               /\ should_process_file rel = true).
Proof.
  intros Hstat. unfold get_all_files. rewrite Hstat, rglob_IsDir.
  rewrite in_map_iff. split.
  - intros ([q k] & <- & Hin). apply filter_In in Hin. simpl in Hin.
    destruct Hin as [Hin Hf]. apply andb_true_iff in Hf. destruct Hf as [Hk Hs].
    apply rglob_children_spec in Hin. destruct Hin as (rel & -> & Hr).
    destruct k; try discriminate. exists rel. split; [reflexivity|].
    split; [assumption|]. rewrite <- Hs. apply should_process_file_name. symmetry.
    apply name_app. eapply reachable_nonempty; eauto.
  - intros (rel & -> & Hr & Hs). exists (input_dir self ++ rel, KFile).
    split; [reflexivity|]. apply filter_In. split.
    + apply rglob_children_spec. eauto.
    + simpl. rewrite <- Hs. apply should_process_file_name.
      apply name_app. eapply reachable_nonempty; eauto.
Qed.

(** C1: a regular file reachable under the input directory at any depth is
    a candidate exactly when its name is not in the ignore set and its
    lower-cased extension is one of ppt, pptx, doc, docx, pdf, txt; every
    candidate is such a file, and a directory is never a candidate. *)
Theorem C1_discovery_filter (w : world) (self : DocumentProcessor)
    (children : list node) (rel : Path) :
  w_stat w (input_dir self) = Some (IsDir children) ->
  (In (input_dir self ++ rel) (get_all_files w self) <->
     reachable children rel KFile
     /\ (PurePath.name rel ∉ IGNORE_FILES)
     /\ exists e, In e allowed_extensions
                  /\ PyStr.lower (PurePath.suffix rel) = "." +:+ e)
  /\ (forall p, In p (get_all_files w self) ->
        exists rel', p = input_dir self ++ rel' /\ reachable children rel' KFile)
  /\ (List.NoDup (List.map node_name children) -> List.Forall wf_node children ->
      forall k, reachable children rel k -> k <> KFile ->
        ~ In (input_dir self ++ rel) (get_all_files w self)).
Proof.
  intros Hstat. split; [|split].
  - rewrite (get_all_files_spec w self children _ Hstat). split.
    + intros (rel' & Heq & Hr & Hs). apply app_inv_head in Heq. subst rel'.
      apply should_process_file_true in Hs. destruct Hs as [Hi Hv].
      apply elem_of_VALID_EXTENSIONS in Hv. tauto.
    + intros (Hr & Hi & Hv). exists rel. split; [reflexivity|].
      split; [assumption|]. apply should_process_file_true. split; [assumption|].
      now apply elem_of_VALID_EXTENSIONS.
  - intros p Hp. apply (get_all_files_spec w self children _ Hstat) in Hp.
    destruct Hp as (rel' & -> & Hr & _). eauto.
  - intros Hnd Hwf k Hk Hne Hin.
    apply (get_all_files_spec w self children _ Hstat) in Hin.
    destruct Hin as (rel' & Heq & Hr & _). apply app_inv_head in Heq. subst rel'.
    apply Hne. eapply reachable_kind_unique; eauto.
Qed.

Lemma C1_discovery_filter_witness :
  w_stat scenario_world (input_dir scenario_self) = Some (IsDir scenario_tree)
  /\ In (input_dir scenario_self ++ ["A"; "report.pptx"])
        (get_all_files scenario_world scenario_self).
Proof.
  split; [reflexivity|].
  apply (proj1 (C1_discovery_filter scenario_world scenario_self scenario_tree
                  ["A"; "report.pptx"] eq_refl)).
  split; [|split].
  - apply (reach_below scenario_tree "A" [File "report.pptx"; File "notes.txt"]);
      [left; reflexivity|].
    apply (reach_child [File "report.pptx"; File "notes.txt"] (File "report.pptx")).
    left; reflexivity.
  - vm_compute. intros H. discriminate H.
  - exists "pptx". split; [simpl; tauto|reflexivity].
Defined.

Lemma get_all_files_filter (w : world) (self : DocumentProcessor) (p : Path) :
  In p (get_all_files w self) -> should_process_file p = true.
Proof.
  unfold get_all_files. rewrite in_map_iff. intros ([q k] & <- & Hin).
  apply filter_In in Hin. simpl in *. destruct Hin as [_ Hf].
  apply andb_true_iff in Hf. tauto.
Qed.

(** C10: a file named by a dot and an allowed extension alone ([.txt],
    [.pdf], ...) has the empty suffix, fails the filter and is never a
    candidate. *)
Theorem C10_bare_dot_extension (e : string) :
  In e allowed_extensions ->
  PurePath.suffix_of ("." +:+ e) = EmptyString
  /\ (forall p : Path, PurePath.name p = "." +:+ e -> should_process_file p = false)
  /\ (forall w self (p : Path),
        In p (get_all_files w self) -> PurePath.name p <> "." +:+ e).
Proof.
  intros Hin.
  assert (Hs : PurePath.suffix_of ("." +:+ e) = EmptyString
               /\ should_process_file ["." +:+ e] = false).
  { simpl in Hin.
    repeat destruct Hin as [<-|Hin]; try contradiction;
      (split; [reflexivity|vm_compute; reflexivity]). }
  destruct Hs as [Hs Hf]. split; [exact Hs|]. split.
  - intros p Hp. rewrite <- Hf. apply should_process_file_name. exact Hp.
  - intros w self p Hp Hname. apply get_all_files_filter in Hp.
    rewrite (should_process_file_name p ["." +:+ e] Hname), Hf in Hp. discriminate.
Qed.

Lemma C10_bare_dot_extension_witness :
  In "txt" allowed_extensions
  /\ PurePath.suffix_of ".txt" = EmptyString
  /\ should_process_file ["in"; ".txt"] = false.
Proof.
  assert (H : In "txt" allowed_extensions) by (simpl; tauto).
  split; [exact H|].
  destruct (C10_bare_dot_extension "txt" H) as (Hs & Hf & _).
  split; [exact Hs|]. apply Hf. reflexivity.
Defined.

(** ** Sequencing *)

Lemma bind_ret_l {A B} (a : A) (k : A -> M B) : bind (ret a) k = k a.
Proof. unfold bind, ret. destruct (k a). reflexivity. Qed.

Lemma bind_returned {A B} (m : M A) (k : A -> M B) tr a :
  m = (tr, Returned a) -> bind m k = (tr ++ trace (k a), result (k a)).
Proof. intros ->. unfold bind, trace, result. destruct (k a). reflexivity. Qed.

Lemma bind_raised {A B} (m : M A) (k : A -> M B) tr e :
  m = (tr, Raised e) -> bind m k = (tr, Raised e).
Proof. intros ->. reflexivity. Qed.

Lemma bind_emit {B} (ev : event) (k : unit -> M B) :
  bind (emit ev) k = (ev :: trace (k tt), result (k tt)).
Proof. unfold emit. erewrite bind_returned by reflexivity. reflexivity. Qed.

Lemma bind_print {B} (text : string) (k : unit -> M B) :
  bind (print text) k = (EvPrint text :: trace (k tt), result (k tt)).
Proof. apply bind_emit. Qed.

Lemma surjective_run {A} (m : M A) : m = (trace m, result m).
Proof. destruct m. reflexivity. Qed.

(** ** One upload *)

Section Upload.

Variable w : world.
Variable self : DocumentProcessor.

Lemma process_single_file_success (file_path : Path) (v : json) :
  w_api w file_path = Responds 200 (inr v) ->
  process_single_file w self file_path =
  ([EvOpen file_path;
    EvPost (api_url self +:+ "/parse_document/ppt") (PurePath.name file_path)],
   Returned (Some v)).
Proof. intros H. unfold process_single_file. rewrite H. reflexivity. Qed.

(** A failed upload never raises: it reports the file with the reason
    and returns no result. *)
Lemma process_single_file_failure (file_path : Path) (reason : string) :
  failure_reason (w_api w file_path) = Some reason ->
  exists sent,
    process_single_file w self file_path =
    (EvOpen file_path :: sent
       ++ [EvPrint ("Error processing " +:+ render file_path +:+ ": " +:+ reason)],
     Returned None)
    /\ (sent = [] \/
        sent = [EvPost (api_url self +:+ "/parse_document/ppt")
                  (PurePath.name file_path)]).
Proof.
  unfold failure_reason, process_single_file.
  destruct (w_api w file_path) as [msg|msg|status body].
  - intros [= <-]. exists []. split; [reflexivity|now left].
  - intros [= <-]. eexists. split; [reflexivity|now right].
  - destruct (negb (status =? 200)%Z) eqn:Hs.
    + intros [= <-]. eexists. split; [|now right].
      reflexivity.
    + destruct body as [msg|v]; [|discriminate].
      intros [= <-]. eexists. split; [|now right].
      reflexivity.
Qed.

Lemma process_single_file_total (file_path : Path) :
  exists tl r,
    process_single_file w self file_path = (EvOpen file_path :: tl, Returned r).
Proof.
  destruct (failure_reason (w_api w file_path)) as [reason|] eqn:Hf.
  - destruct (process_single_file_failure _ _ Hf) as (sent & -> & _). eauto.
  - unfold failure_reason in Hf.
    destruct (w_api w file_path) as [| |status [|v]] eqn:Ha; try discriminate;
      destruct (negb (status =? 200)%Z) eqn:Hs; try discriminate.
    apply negb_false_iff, Z.eqb_eq in Hs. subst status.
    rewrite (process_single_file_success _ _ Ha). eauto.
Qed.

(** The loop on a file below the input directory. *)
Lemma process_files_cons (total_files idx : nat) (rel : Path) (rest : list Path) :
  process_files w self total_files idx ((input_dir self ++ rel) :: rest) =
  (print ("Processing [" +:+ str_nat idx +:+ "/" +:+ str_nat total_files +:+ "]: "
          +:+ render_rel rel) ;;
   response_data <- process_single_file w self (input_dir self ++ rel) ;;
   match response_data with
   | Some v =>
       if Py.truthy v then
         save_outputs self (input_dir self ++ rel) v ;;
         print ("Successfully processed: " +:+ render_rel rel)
       else
         print ("Failed to process: " +:+ render_rel rel)
   | None =>
       print ("Failed to process: " +:+ render_rel rel)
   end ;;
   process_files w self total_files (S idx) rest)%py.
Proof.
  simpl. unfold get_relative_path. rewrite relative_to_app.
  rewrite bind_ret_l. reflexivity.
Qed.

End Upload.

Lemma in_uploads (file : Path) (tr : list event) :
  In file (uploads tr) <-> In (EvOpen file) tr.
Proof.
  unfold uploads. rewrite in_flat_map. split.
  - intros (ev & Hin & Hev). destruct ev; simpl in Hev; try contradiction.
    destruct Hev as [->|[]]. exact Hin.
  - intros Hin. exists (EvOpen file). split; [exact Hin|now left].
Qed.

(** C3: when the upload of a file gets a status other than 200, or an
    exception occurs during the request (opening the file included), the
    uploader reports the failure, returns no result and does not raise; the
    file is marked failed and the loop goes on with the rest of the list, so
    the next file is uploaded whatever happened to this one. *)
Theorem C3_failed_upload_continues (w : world) (self : DocumentProcessor)
    (total_files idx : nat) (rel : Path) (rest : list Path) (reason : string) :
  failure_reason (w_api w (input_dir self ++ rel)) = Some reason ->
  result (process_single_file w self (input_dir self ++ rel)) = Returned None
  /\ List.last (prints (trace (process_single_file w self (input_dir self ++ rel))))
       EmptyString
     = "Error processing " +:+ render (input_dir self ++ rel) +:+ ": " +:+ reason
  /\ process_files w self total_files idx ((input_dir self ++ rel) :: rest) =
     (EvPrint ("Processing [" +:+ str_nat idx +:+ "/" +:+ str_nat total_files +:+ "]: "
               +:+ render_rel rel)
        :: trace (process_single_file w self (input_dir self ++ rel))
        ++ EvPrint ("Failed to process: " +:+ render_rel rel)
        :: trace (process_files w self total_files (S idx) rest),
      result (process_files w self total_files (S idx) rest))
  /\ (forall relY rest',
        rest = (input_dir self ++ relY) :: rest' ->
        In (input_dir self ++ relY)
           (uploads (trace (process_files w self total_files idx
                              ((input_dir self ++ rel) :: rest))))).
Proof.
  intros Hf.
  destruct (process_single_file_failure w self _ _ Hf) as (sent & Hrun & Hsent).
  assert (Hloop :
    process_files w self total_files idx ((input_dir self ++ rel) :: rest) =
    (EvPrint ("Processing [" +:+ str_nat idx +:+ "/" +:+ str_nat total_files +:+ "]: "
              +:+ render_rel rel)
       :: trace (process_single_file w self (input_dir self ++ rel))
       ++ EvPrint ("Failed to process: " +:+ render_rel rel)
       :: trace (process_files w self total_files (S idx) rest),
     result (process_files w self total_files (S idx) rest))).
  { rewrite process_files_cons, bind_print.
    rewrite (bind_returned _ _ _ _ Hrun). cbn [trace result fst snd].
    rewrite bind_print. rewrite Hrun. reflexivity. }
  split; [|split; [|split]].
  - rewrite Hrun. reflexivity.
  - rewrite Hrun. cbn [trace fst]. destruct Hsent as [-> | ->]; reflexivity.
  - exact Hloop.
  - intros relY rest' ->. rewrite Hloop. cbn [trace fst].
    rewrite process_files_cons, bind_print. cbn [trace fst].
    destruct (process_single_file_total w self (input_dir self ++ relY))
      as (tl & r & HY).
    rewrite (bind_returned _ _ _ _ HY). cbn [trace fst].
    apply in_uploads. right. apply in_or_app. right. right. right. left.
    reflexivity.
Qed.

(** ** Names of the artifacts *)

Lemma append_String (c : ascii) (x y : string) :
  String c x +:+ y = String c (x +:+ y).
Proof. reflexivity. Qed.

Lemma append_empty_r (s : string) : s +:+ EmptyString = s.
Proof.
  induction s as [|c s IH]; [reflexivity|]. now rewrite append_String, IH.
Qed.

Lemma substring_all (s : string) : String.substring 0 (String.length s) s = s.
Proof. induction s as [|c s IH]; simpl; [reflexivity|]. now rewrite IH. Qed.

Lemma take_drop (s : string) (i : nat) :
  (i <= String.length s)%nat -> PyStr.take i s +:+ PyStr.drop i s = s.
Proof.
  unfold PyStr.take, PyStr.drop. revert i.
  induction s as [|c s IH]; intros i Hi; simpl in Hi.
  - assert (i = 0)%nat as -> by lia. reflexivity.
  - destruct i as [|i].
    + simpl. now rewrite substring_all.
    + simpl. rewrite append_String. f_equal. apply IH. lia.
Qed.

(** The base name is the stem followed by the suffix. *)
Lemma stem_suffix (nm : string) :
  nm = PurePath.stem_of nm +:+ PurePath.suffix_of nm.
Proof.
  unfold PurePath.stem_of, PurePath.suffix_of.
  destruct (PyStr.rfind "." nm) as [i|].
  - destruct ((0 <? i)%nat && (i <? String.length nm - 1)%nat) eqn:E.
    + apply andb_true_iff in E. destruct E as [_ E]. apply Nat.ltb_lt in E.
      symmetry. apply take_drop. lia.
    + symmetry. apply append_empty_r.
  - symmetry. apply append_empty_r.
Qed.

Lemma replace_length (a b : ascii) (s : string) :
  String.length (PyStr.replace a b s) = String.length s.
Proof. induction s as [|c s IH]; simpl; [reflexivity|]. now rewrite IH. Qed.

Lemma replace_get (a b : ascii) (s : string) (i : nat) :
  String.get i (PyStr.replace a b s)
  = option_map (fun c => if Ascii.eqb c a then b else c) (String.get i s).
Proof.
  revert i. induction s as [|c s IH]; intros i; simpl; [reflexivity|].
  destruct i; [reflexivity|]. apply IH.
Qed.

(** What the constructor leaves in the processor it returns. *)
Lemma init_returned (w : world) (url input output : string) (self : DocumentProcessor) :
  result (init w url input output) = Returned self ->
  self = {| api_url := PyStr.rstrip "/" url;
            input_dir := w_resolve w input;
            output_dir := w_resolve w output;
            json_dir := w_resolve w output ++ ["json"];
            md_dir := w_resolve w output ++ ["markdown"] |}
  /\ is_Some (w_stat w (w_resolve w input)).
Proof.
  unfold init. case_bool_decide as Hs; simpl.
  - intros [= <-]. split; [reflexivity|exact Hs].
  - discriminate.
Qed.

Lemma save_outputs_under (self : DocumentProcessor) (rel : Path) (v : json) :
  save_outputs self (input_dir self ++ rel) v =
  (EvMkdir (json_dir self ++ PurePath.parent rel)
     :: EvMkdir (md_dir self ++ PurePath.parent rel)
     :: EvWrite (json_path self (input_dir self ++ rel) rel) (Json.dumps v)
     :: trace (save_text self (input_dir self ++ rel) rel v),
   result (save_text self (input_dir self ++ rel) rel v)).
Proof.
  unfold save_outputs, get_relative_path. rewrite relative_to_app, bind_ret_l.
  rewrite !bind_emit. cbn [trace result fst snd]. reflexivity.
Qed.

(** The text step writes nothing, or the text artifact alone. *)
Lemma save_text_writes (self : DocumentProcessor) (file_path rel : Path) (v : json) :
  writes (trace (save_text self file_path rel v)) = []
  \/ exists text,
       writes (trace (save_text self file_path rel v)) = [(md_path self file_path rel, text)].
Proof.
  unfold save_text.
  destruct (Py.contains "text" v) as [e|[|]]; [now left| |now left].
  destruct (Py.getitem "text" v) as [e|[]]; right; eexists; reflexivity.
Qed.

Lemma save_outputs_writes (self : DocumentProcessor) (rel : Path) (v : json) :
  writes (trace (save_outputs self (input_dir self ++ rel) v)) =
  (json_path self (input_dir self ++ rel) rel, Json.dumps v)
    :: writes (trace (save_text self (input_dir self ++ rel) rel v)).
Proof. rewrite save_outputs_under. reflexivity. Qed.

(** C4: for a file at [rel] below the input directory, the structured
    artifact is written at [<output>/json/<dir of rel>/<safe stem>.json]
    and the text artifact, when there is one, at
    [<output>/markdown/<dir of rel>/<safe stem>.md]; the safe stem is the
    base name without its extension, every space turned into an underscore
    and every other character kept. *)
Theorem C4_artifact_paths (w : world) (url input output : string)
    (self : DocumentProcessor) (rel : Path) (v : json) :
  result (init w url input output) = Returned self ->
  rel <> [] ->
  let safe_stem := get_safe_filename (PurePath.stem rel) in
  let json_file :=
    output_dir self ++ ["json"] ++ PurePath.parent rel ++ [safe_stem +:+ ".json"] in
  let md_file :=
    output_dir self ++ ["markdown"] ++ PurePath.parent rel ++ [safe_stem +:+ ".md"] in
  (exists rest,
     writes (trace (save_outputs self (input_dir self ++ rel) v))
     = (json_file, Json.dumps v) :: rest
     /\ (rest = [] \/ exists text, rest = [(md_file, text)]))
  /\ PurePath.name rel = PurePath.stem rel +:+ PurePath.suffix rel
  /\ String.length safe_stem = String.length (PurePath.stem rel)
  /\ (forall i,
        String.get i safe_stem
        = option_map (fun c => if Ascii.eqb c " " then "_"%char else c)
            (String.get i (PurePath.stem rel))).
Proof.
  intros Hinit Hrel safe_stem json_file md_file.
  apply init_returned in Hinit. destruct Hinit as [Hself _].
  assert (Hj : json_dir self = output_dir self ++ ["json"]) by (subst self; reflexivity).
  assert (Hm : md_dir self = output_dir self ++ ["markdown"]) by (subst self; reflexivity).
  assert (Hstem : PurePath.stem (input_dir self ++ rel) = PurePath.stem rel)
    by (unfold PurePath.stem; now rewrite name_app).
  split; [|split; [|split]].
  - rewrite save_outputs_writes.
    exists (writes (trace (save_text self (input_dir self ++ rel) rel v))). split.
    + unfold json_path. rewrite Hstem, Hj. unfold json_file, safe_stem.
      now rewrite <- !app_assoc.
    + destruct (save_text_writes self (input_dir self ++ rel) rel v) as [->|[text ->]];
        [now left|right]. exists text.
      unfold md_path. rewrite Hstem, Hm. unfold md_file, safe_stem.
      now rewrite <- !app_assoc.
  - apply stem_suffix.
  - apply replace_length.
  - intros i. apply replace_get.
Qed.

Lemma C4_artifact_paths_witness :
  result (init scenario_world "http://localhost:8000/" "in" "output")
  = Returned scenario_self
  /\ ["A"; "my deck.pptx"] <> []
  /\ exists rest,
       writes (trace (save_outputs scenario_self
                        (input_dir scenario_self ++ ["A"; "my deck.pptx"])
                        (JObject [("text", JString "hello")])))
       = (["output"; "json"; "A"; "my_deck.json"],
          Json.dumps (JObject [("text", JString "hello")])) :: rest
       /\ (rest = [] \/
           exists text, rest = [(["output"; "markdown"; "A"; "my_deck.md"], text)]).
Proof.
  assert (H1 : result (init scenario_world "http://localhost:8000/" "in" "output")
               = Returned scenario_self) by reflexivity.
  assert (H2 : ["A"; "my deck.pptx"] <> []) by discriminate.
  split; [exact H1|]. split; [exact H2|].
  exact (proj1 (C4_artifact_paths scenario_world "http://localhost:8000/" "in" "output"
                  scenario_self ["A"; "my deck.pptx"]
                  (JObject [("text", JString "hello")]) H1 H2)).
Defined.

(** ** The text artifact *)

Lemma append_inj_l (s a b : string) : s +:+ a = s +:+ b -> a = b.
Proof.
  induction s as [|c s IH]; [trivial|].
  rewrite !append_String. intros [= H]. auto.
Qed.

Lemma json_path_ne_md_path (self : DocumentProcessor) (file_path rel : Path) :
  json_path self file_path rel <> md_path self file_path rel.
Proof.
  unfold json_path, md_path. intros H.
  apply app_inj_tail in H. destruct H as [_ H].
  apply append_inj_l in H. discriminate.
Qed.

(** C5, as stated, fails on an object whose [text] is not a string, and on
    a list holding the string [text]: the text file is opened, and left
    empty, before the writer raises. *)
Lemma C5_counterexample :
  save_outputs scenario_self ["in"; "a.txt"] (JObject [("text", JInt 5)])
  = ([EvMkdir ["output"; "json"]; EvMkdir ["output"; "markdown"];
      EvWrite ["output"; "json"; "a.json"] (Json.dumps (JObject [("text", JInt 5)]));
      EvWrite ["output"; "markdown"; "a.md"] EmptyString],
     Raised (TypeError "write() argument must be str, not int"))
  /\ ~ (forall content,
          In (["output"; "markdown"; "a.md"], content)
             (writes (trace (save_outputs scenario_self ["in"; "a.txt"]
                               (JObject [("text", JInt 5)])))) ->
          Py.getitem "text" (JObject [("text", JInt 5)]) = inr (JString content))
  /\ save_outputs scenario_self ["in"; "a.txt"] (JArray [JString "text"])
     = ([EvMkdir ["output"; "json"]; EvMkdir ["output"; "markdown"];
         EvWrite ["output"; "json"; "a.json"] (Json.dumps (JArray [JString "text"]));
         EvWrite ["output"; "markdown"; "a.md"] EmptyString],
        Raised (TypeError "list indices must be integers or slices, not str")).
Proof.
  split; [reflexivity|]. split; [|reflexivity].
  intros H. specialize (H EmptyString). cbn in H.
  assert (Hin : (["output"; "json"; "a.json"], Json.dumps (JObject [("text", JInt 5)]))
                = (["output"; "markdown"; "a.md"], EmptyString)
                \/ (["output"; "markdown"; "a.md"], EmptyString)
                   = (["output"; "markdown"; "a.md"], EmptyString) \/ False)
    by (right; left; reflexivity).
  specialize (H Hin). discriminate H.
Qed.

(** C5, amended: for a result that is a JSON object the structured artifact
    is always written; a text artifact is written exactly when the object
    has the key [text]; when the value of that key is a string, the text
    artifact holds that string unchanged (for another value the text file
    is left empty and the writer raises); an object without the key yields
    the structured artifact alone. *)
Theorem C5_text_artifact (self : DocumentProcessor) (rel : Path)
    (fields : list (string * json)) :
  let file_path := input_dir self ++ rel in
  let run := save_outputs self file_path (JObject fields) in
  let json_file := json_path self file_path rel in
  let md_file := md_path self file_path rel in
  match Py.dict_get "text" fields with
  | None =>
      writes (trace run) = [(json_file, Json.dumps (JObject fields))]
      /\ result run = Returned tt
  | Some (JString text) =>
      writes (trace run) = [(json_file, Json.dumps (JObject fields)); (md_file, text)]
      /\ result run = Returned tt
  | Some other =>
      writes (trace run)
      = [(json_file, Json.dumps (JObject fields)); (md_file, EmptyString)]
      /\ result run
         = Raised (TypeError ("write() argument must be str, not "
                              +:+ Py.arg_type_name other))
  end
  /\ ((exists content, In (md_file, content) (writes (trace run)))
      <-> is_Some (Py.dict_get "text" fields)).
Proof.
  intros file_path run json_file md_file.
  pose proof (json_path_ne_md_path self file_path rel) as Hne.
  subst run json_file md_file file_path.
  rewrite save_outputs_writes, save_outputs_under.
  cbn [result snd]. unfold save_text. cbn [Py.contains Py.getitem].
  set (json_file := json_path self (input_dir self ++ rel) rel) in *.
  set (md_file := md_path self (input_dir self ++ rel) rel) in *.
  destruct (Py.dict_get "text" fields) as [other|] eqn:Hget.
  - rewrite bool_decide_true by eauto.
    assert (Hiff : forall c rest : string,
      (exists content : string,
         In (md_file, content) ((json_file, rest) :: [(md_file, c)]))
      <-> is_Some (Some other)).
    { intros c rest. split; [eauto|]. intros _. exists c. right. now left. }
    destruct other; (split; [split; reflexivity|apply Hiff]).
  - rewrite bool_decide_false by (intros [? ?]; discriminate).
    split; [split; reflexivity|].
    split.
    + intros (content & [H|[]]). inversion H. congruence.
    + intros [? ?]. discriminate.
Qed.

Lemma C5_text_artifact_witness :
  writes (trace (save_outputs scenario_self (input_dir scenario_self ++ ["A"; "report.pptx"])
                   (JObject [("text", JString "hello")])))
  = [(["output"; "json"; "A"; "report.json"],
      Json.dumps (JObject [("text", JString "hello")]));
     (["output"; "markdown"; "A"; "report.md"], "hello")]
  /\ result (save_outputs scenario_self (input_dir scenario_self ++ ["A"; "report.pptx"])
               (JObject [("text", JString "hello")])) = Returned tt.
Proof.
  exact (proj1 (C5_text_artifact scenario_self ["A"; "report.pptx"]
                  [("text", JString "hello")])).
Defined.

(** ** The loop on a successful upload *)

Section Loop.

Variable w : world.
Variable self : DocumentProcessor.

Lemma process_files_saved (total_files idx : nat) (rel : Path) (rest : list Path)
    (v : json) :
  w_api w (input_dir self ++ rel) = Responds 200 (inr v) ->
  Py.truthy v = true ->
  result (save_outputs self (input_dir self ++ rel) v) = Returned tt ->
  process_files w self total_files idx ((input_dir self ++ rel) :: rest) =
  (EvPrint ("Processing [" +:+ str_nat idx +:+ "/" +:+ str_nat total_files +:+ "]: "
            +:+ render_rel rel)
     :: trace (process_single_file w self (input_dir self ++ rel))
     ++ trace (save_outputs self (input_dir self ++ rel) v)
     ++ EvPrint ("Successfully processed: " +:+ render_rel rel)
     :: trace (process_files w self total_files (S idx) rest),
   result (process_files w self total_files (S idx) rest)).
Proof.
  intros Ha Ht Hs.
  rewrite process_files_cons, bind_print.
  rewrite (process_single_file_success w self _ _ Ha).
  erewrite bind_returned by reflexivity. cbn beta iota. rewrite Ht.
  cbn [trace result fst snd].
  assert (Hin :
    (save_outputs self (input_dir self ++ rel) v ;;
     print ("Successfully processed: " +:+ render_rel rel))%py
    = (trace (save_outputs self (input_dir self ++ rel) v)
         ++ [EvPrint ("Successfully processed: " +:+ render_rel rel)],
       Returned tt)).
  { rewrite (bind_returned _ _ (trace (save_outputs self (input_dir self ++ rel) v)) tt)
      by (rewrite <- Hs; apply surjective_run).
    reflexivity. }
  rewrite (bind_returned _ _ _ _ Hin). cbn [app].
  rewrite <- !app_assoc. reflexivity.
Qed.

Lemma process_files_save_raised (total_files idx : nat) (rel : Path)
    (rest : list Path) (v : json) (e : exn) :
  w_api w (input_dir self ++ rel) = Responds 200 (inr v) ->
  Py.truthy v = true ->
  result (save_outputs self (input_dir self ++ rel) v) = Raised e ->
  process_files w self total_files idx ((input_dir self ++ rel) :: rest) =
  (EvPrint ("Processing [" +:+ str_nat idx +:+ "/" +:+ str_nat total_files +:+ "]: "
            +:+ render_rel rel)
     :: trace (process_single_file w self (input_dir self ++ rel))
     ++ trace (save_outputs self (input_dir self ++ rel) v),
   Raised e).
Proof.
  intros Ha Ht Hs.
  rewrite process_files_cons, bind_print.
  rewrite (process_single_file_success w self _ _ Ha).
  erewrite bind_returned by reflexivity. cbn beta iota. rewrite Ht.
  cbn [trace result fst snd].
  assert (Hin :
    (save_outputs self (input_dir self ++ rel) v ;;
     print ("Successfully processed: " +:+ render_rel rel))%py
    = (trace (save_outputs self (input_dir self ++ rel) v), Raised e)).
  { apply bind_raised. rewrite <- Hs. apply surjective_run. }
  rewrite (bind_raised _ _ _ _ Hin). reflexivity.
Qed.

(** A result that Python takes for false is not handed to the writer. *)
Lemma process_files_falsy (total_files idx : nat) (rel : Path) (rest : list Path)
    (v : json) :
  w_api w (input_dir self ++ rel) = Responds 200 (inr v) ->
  Py.truthy v = false ->
  process_files w self total_files idx ((input_dir self ++ rel) :: rest) =
  (EvPrint ("Processing [" +:+ str_nat idx +:+ "/" +:+ str_nat total_files +:+ "]: "
            +:+ render_rel rel)
     :: trace (process_single_file w self (input_dir self ++ rel))
     ++ EvPrint ("Failed to process: " +:+ render_rel rel)
     :: trace (process_files w self total_files (S idx) rest),
   result (process_files w self total_files (S idx) rest)).
Proof.
  intros Ha Ht.
  rewrite process_files_cons, bind_print.
  rewrite (process_single_file_success w self _ _ Ha).
  erewrite bind_returned by reflexivity. cbn beta iota. rewrite Ht.
  cbn [trace result fst snd]. rewrite bind_print. reflexivity.
Qed.

End Loop.

(** C2, at the failing input: the upload of [a.txt] is answered with
    status 200 and the body [{}]; the loop takes the empty object for "no
    result", reports the file as failed and writes no artifact. *)
Theorem C2_empty_object_not_saved :
  main Urllib.urlparse
    (mk_world [File "a.txt"] (fun _ => Responds 200 (inr (JObject []))))
    scenario_cmd
  = ([EvMkdir ["output"]; EvMkdir ["output"; "json"]; EvMkdir ["output"; "markdown"];
      EvPrint "Input directory: /in"; EvPrint "Output directory: /output";
      EvScan ["in"];
      EvPrint "Found 1 files to process";
      EvPrint "Processing [1/1]: a.txt";
      EvOpen ["in"; "a.txt"];
      EvPost "http://localhost:8000/parse_document/ppt" "a.txt";
      EvPrint "Failed to process: a.txt"],
     0%Z).
Proof. vm_compute. reflexivity. Qed.

(** ** The output tree after a run *)

Lemma replay_app (tr1 tr2 : list event) (s : store) :
  replay (tr1 ++ tr2) s = replay tr2 (replay tr1 s).
Proof. unfold replay. apply fold_left_app. Qed.

Lemma writes_app (tr1 tr2 : list event) : writes (tr1 ++ tr2) = writes tr1 ++ writes tr2.
Proof. unfold writes. apply flat_map_app. Qed.

(** A file no event writes keeps its content. *)
Lemma replay_lookup_untouched (tr : list event) (s : store) (file : list string) :
  (forall content, ~ In (file, content) (writes tr)) ->
  replay tr s !! file = s !! file.
Proof.
  revert s. induction tr as [|ev tr IH]; intros s Hno; [reflexivity|].
  change (replay (ev :: tr) s) with (replay tr (apply_event s ev)).
  rewrite IH.
  - destruct ev; try reflexivity. simpl.
    apply lookup_insert_ne. intros ->. apply (Hno content). now left.
  - intros content Hin. apply (Hno content).
    change (ev :: tr) with ([ev] ++ tr). rewrite writes_app.
    apply in_or_app. now right.
Qed.

(** The content of a file is that of the last write to it. *)
Lemma replay_lookup_last (before after : list event) (s : store)
    (file : list string) (content : string) :
  (forall c, ~ In (file, c) (writes after)) ->
  replay (before ++ EvWrite file content :: after) s !! file = Some content.
Proof.
  intros Hno. rewrite replay_app.
  change (replay (EvWrite file content :: after) (replay before s))
    with (replay after (<[file := content]> (replay before s))).
  rewrite replay_lookup_untouched by exact Hno.
  apply lookup_insert_eq.
Qed.

Lemma save_text_keeps_json (self : DocumentProcessor) (file_path rel : Path) (v : json) :
  forall c, ~ In (json_path self file_path rel, c)
              (writes (trace (save_text self file_path rel v))).
Proof.
  intros c Hin.
  destruct (save_text_writes self file_path rel v) as [H|[text H]];
    rewrite H in Hin; [contradiction|].
  destruct Hin as [Hin|[]]. inversion Hin as [[Hp Hc]].
  symmetry in Hp. now apply json_path_ne_md_path in Hp.
Qed.

(** The last file of the list, uploaded with success, leaves its result
    in its structured artifact. *)
Lemma process_files_last_saved (w : world) (self : DocumentProcessor)
    (total_files idx : nat) (rel : Path) (v : json) :
  w_api w (input_dir self ++ rel) = Responds 200 (inr v) ->
  Py.truthy v = true ->
  exists before after,
    trace (process_files w self total_files idx [input_dir self ++ rel])
    = before ++ EvWrite (json_path self (input_dir self ++ rel) rel) (Json.dumps v) :: after
    /\ forall c, ~ In (json_path self (input_dir self ++ rel) rel, c) (writes after).
Proof.
  intros Ha Ht.
  destruct (result (save_outputs self (input_dir self ++ rel) v)) as [[]|e] eqn:Hs.
  - rewrite (process_files_saved w self _ _ _ _ _ Ha Ht Hs).
    rewrite save_outputs_under. cbn [trace fst].
    exists (EvPrint ("Processing [" +:+ str_nat idx +:+ "/" +:+ str_nat total_files
                     +:+ "]: " +:+ render_rel rel)
              :: trace (process_single_file w self (input_dir self ++ rel))
              ++ [EvMkdir (json_dir self ++ PurePath.parent rel);
                  EvMkdir (md_dir self ++ PurePath.parent rel)]),
           (trace (save_text self (input_dir self ++ rel) rel v)
              ++ EvPrint ("Successfully processed: " +:+ render_rel rel)
              :: trace (process_files w self total_files (S idx) [])).
    split.
    + cbn [app]. rewrite <- app_assoc. reflexivity.
    + intros c Hin. rewrite writes_app in Hin. apply in_app_or in Hin.
      destruct Hin as [Hin|Hin]; [now apply save_text_keeps_json in Hin|].
      simpl in Hin. exact Hin.
  - rewrite (process_files_save_raised w self _ _ _ _ _ _ Ha Ht Hs).
    rewrite save_outputs_under. cbn [trace fst].
    exists (EvPrint ("Processing [" +:+ str_nat idx +:+ "/" +:+ str_nat total_files
                     +:+ "]: " +:+ render_rel rel)
              :: trace (process_single_file w self (input_dir self ++ rel))
              ++ [EvMkdir (json_dir self ++ PurePath.parent rel);
                  EvMkdir (md_dir self ++ PurePath.parent rel)]),
           (trace (save_text self (input_dir self ++ rel) rel v)).
    split.
    + cbn [app]. rewrite <- app_assoc. reflexivity.
    + apply save_text_keeps_json.
Qed.

(** ** Colliding artifact names *)

Lemma collision_names (e : string) :
  In e allowed_extensions ->
  PurePath.stem_of ("a b." +:+ e) = "a b"
  /\ PurePath.stem_of ("a_b." +:+ e) = "a_b"
  /\ should_process_file ["a b." +:+ e] = true
  /\ should_process_file ["a_b." +:+ e] = true.
Proof.
  intros Hin. simpl in Hin.
  repeat destruct Hin as [<-|Hin]; try contradiction;
    (split; [reflexivity|split; [reflexivity|split; vm_compute; reflexivity]]).
Qed.

Lemma json_path_snoc (self : DocumentProcessor) (dir : Path) (nm : string) :
  json_path self (input_dir self ++ dir ++ [nm]) (dir ++ [nm])
  = (json_dir self ++ dir) ++ [get_safe_filename (PurePath.stem_of nm) +:+ ".json"].
Proof.
  unfold json_path, PurePath.stem.
  rewrite parent_snoc, app_assoc, name_snoc. reflexivity.
Qed.

(** C9: the safe stem is not injective.  In any directory [dir] of the
    input tree and for any allowed extension, the two distinct candidates
    with stems [a b] and [a_b] have the same structured-artifact path, and
    when both are processed the artifact holds the result of the one
    processed later. *)
Theorem C9_safe_stem_collision (w : world) (self : DocumentProcessor) (dir : Path)
    (e : string) (v1 v2 : json) (total_files idx : nat) (s : store) :
  In e allowed_extensions ->
  let relX := dir ++ ["a b." +:+ e] in
  let relY := dir ++ ["a_b." +:+ e] in
  let X := input_dir self ++ relX in
  let Y := input_dir self ++ relY in
  w_api w X = Responds 200 (inr v1) ->
  w_api w Y = Responds 200 (inr v2) ->
  Py.truthy v1 = true ->
  Py.truthy v2 = true ->
  result (save_outputs self X v1) = Returned tt ->
  result (save_outputs self Y v2) = Returned tt ->
  X <> Y
  /\ should_process_file X = true /\ should_process_file Y = true
  /\ PurePath.parent relX = PurePath.parent relY
  /\ get_safe_filename (PurePath.stem X) = get_safe_filename (PurePath.stem Y)
  /\ json_path self X relX = json_path self Y relY
  /\ replay (trace (process_files w self total_files idx [X; Y])) s
       !! json_path self X relX = Some (Json.dumps v2)
  /\ replay (trace (process_files w self total_files idx [Y; X])) s
       !! json_path self X relX = Some (Json.dumps v1).
Proof.
  intros Hin relX relY X Y HaX HaY Ht1 Ht2 Hs1 Hs2.
  destruct (collision_names e Hin) as (HstX & HstY & HfX & HfY).
  assert (Hjp : json_path self X relX = json_path self Y relY).
  { subst X Y relX relY. rewrite !json_path_snoc, HstX, HstY. reflexivity. }
  assert (HnX : PurePath.name X = "a b." +:+ e)
    by (subst X relX; rewrite app_assoc; apply name_snoc).
  assert (HnY : PurePath.name Y = "a_b." +:+ e)
    by (subst Y relY; rewrite app_assoc; apply name_snoc).
  split; [|split; [|split; [|split; [|split; [|split; [|split]]]]]].
  - intros Heq. rewrite Heq, HnY in HnX. discriminate HnX.
  - rewrite <- HfX. apply should_process_file_name. rewrite HnX. reflexivity.
  - rewrite <- HfY. apply should_process_file_name. rewrite HnY. reflexivity.
  - subst relX relY. now rewrite !parent_snoc.
  - unfold PurePath.stem. rewrite HnX, HnY, HstX, HstY. reflexivity.
  - exact Hjp.
  - pose proof (process_files_saved w self total_files idx relX [Y] v1 HaX Ht1 Hs1) as H1.
    destruct (process_files_last_saved w self total_files (S idx) relY v2 HaY Ht2)
      as (before & after & Htr & Hno).
    change (input_dir self ++ relX) with X in H1.
    change (input_dir self ++ relY) with Y in Htr, Hno.
    rewrite H1. cbn [trace fst]. rewrite Htr, Hjp.
    rewrite app_comm_cons, !app_assoc. rewrite app_comm_cons, app_assoc.
    apply replay_lookup_last. exact Hno.
  - pose proof (process_files_saved w self total_files idx relY [X] v2 HaY Ht2 Hs2) as H1.
    destruct (process_files_last_saved w self total_files (S idx) relX v1 HaX Ht1)
      as (before & after & Htr & Hno).
    change (input_dir self ++ relY) with Y in H1.
    change (input_dir self ++ relX) with X in Htr, Hno.
    rewrite H1. cbn [trace fst]. rewrite Htr.
    rewrite app_comm_cons, !app_assoc. rewrite app_comm_cons, app_assoc.
    apply replay_lookup_last. exact Hno.
Qed.

Lemma C9_safe_stem_collision_witness :
  In "txt" allowed_extensions
  /\ ["in"; "a b.txt"] <> ["in"; "a_b.txt"]
  /\ replay (trace (process_files collision_world scenario_self 2 1
                      [["in"; "a b.txt"]; ["in"; "a_b.txt"]])) ∅
       !! ["output"; "json"; "a_b.json"]
     = Some (Json.dumps (JObject [("n", JInt 2)])).
Proof.
  assert (H : In "txt" allowed_extensions) by (simpl; tauto).
  split; [exact H|].
  pose proof (C9_safe_stem_collision collision_world scenario_self [] "txt"
                (JObject [("n", JInt 1)]) (JObject [("n", JInt 2)]) 2 1 ∅ H
                eq_refl eq_refl eq_refl eq_refl eq_refl eq_refl) as HC.
  split; [exact (proj1 HC)|].
  exact (proj1 (proj2 (proj2 (proj2 (proj2 (proj2 (proj2 HC))))))).
Defined.

Lemma C3_failed_upload_continues_witness :
  failure_reason (w_api (mk_world scenario_tree failing_api)
                    (input_dir scenario_self ++ ["A"; "report.pptx"])) = Some "500"
  /\ result (process_single_file (mk_world scenario_tree failing_api) scenario_self
               ["in"; "A"; "report.pptx"]) = Returned None
  /\ In ["in"; "A"; "notes.txt"]
        (uploads (trace (process_files (mk_world scenario_tree failing_api) scenario_self
                           2 1 [["in"; "A"; "report.pptx"]; ["in"; "A"; "notes.txt"]]))).
Proof.
  assert (H : failure_reason (w_api (mk_world scenario_tree failing_api)
                                (input_dir scenario_self ++ ["A"; "report.pptx"]))
              = Some "500") by reflexivity.
  split; [exact H|].
  pose proof (C3_failed_upload_continues (mk_world scenario_tree failing_api)
                scenario_self 2 1 ["A"; "report.pptx"] [["in"; "A"; "notes.txt"]]
                "500" H) as HC.
  split; [exact (proj1 HC)|].
  exact (proj2 (proj2 (proj2 HC)) ["A"; "notes.txt"] [] eq_refl).
Defined.

(** ** The whole process *)

Lemma bind_result_inv {A B} (m : M A) (k : A -> M B) (tr : list event) (b : B) :
  bind m k = (tr, Returned b) ->
  exists tr1 a tr2, m = (tr1, Returned a) /\ k a = (tr2, Returned b) /\ tr = tr1 ++ tr2.
Proof.
  destruct m as [tr1 [a|e]]; simpl; [|discriminate].
  destruct (k a) as [tr2 r] eqn:Hk. intros [= <- ->]. eauto 6.
Qed.

Lemma bind_ext {A B} (m : M A) (k1 k2 : A -> M B) :
  (forall a, k1 a = k2 a) -> bind m k1 = bind m k2.
Proof. intros H. destruct m as [tr [a|e]]; simpl; [now rewrite H|reflexivity]. Qed.

Section Exit.

Variable urlparse : string -> option (string * string).

Lemma validate_url_rejects (u : string) :
  ~ (exists scheme netloc,
       urlparse u = Some (scheme, netloc)
       /\ scheme <> EmptyString /\ netloc <> EmptyString) ->
  validate_url urlparse u = inl ("Invalid URL format: " +:+ u).
Proof.
  intros Hno. unfold validate_url.
  destruct (urlparse u) as [[scheme netloc]|]; [|reflexivity].
  destruct (String.eqb scheme EmptyString) eqn:E1; [reflexivity|].
  destruct (String.eqb netloc EmptyString) eqn:E2; [reflexivity|].
  exfalso. apply Hno. exists scheme, netloc.
  apply String.eqb_neq in E1, E2. auto.
Qed.

(** [main] returns 0 or 1 once the arguments are parsed. *)
Lemma main_run_code (w : world) (args : namespace) :
  exists tr code,
    main_run w args = (tr, Returned code) /\ (code = 0 \/ code = 1)%Z.
Proof.
  unfold main_run.
  match goal with
  | |- context [try_except ?b ?h] => destruct b as [tr [a|e]] eqn:Hb
  end.
  - apply bind_result_inv in Hb. destruct Hb as (tr1 & self & tr2 & _ & Hb & _).
    apply bind_result_inv in Hb. destruct Hb as (tr3 & [] & tr4 & _ & Hb & _).
    injection Hb as _ <-. simpl. eauto.
  - destruct e; simpl; eauto.
Qed.

Lemma main_codes (w : world) (c : cmdline) :
  (snd (main urlparse w c) = 0 \/ snd (main urlparse w c) = 1
   \/ snd (main urlparse w c) = 2)%Z
  /\ (snd (main urlparse w c) = 2%Z <-> exists msg, parse_args urlparse c = inl msg).
Proof.
  unfold main. destruct (parse_args urlparse c) as [msg|args].
  - simpl. split; [tauto|]. split; eauto.
  - destruct (main_run_code w args) as (tr & code & -> & Hc). simpl. split.
    + tauto.
    + split; [lia|]. intros [msg Hm]. discriminate.
Qed.

End Exit.

(** C6, as stated, fails twice: with [--api-url not-a-url] the argument
    parser reports the error and the process exits with status 2, not 1;
    and the test is on the network location, not on the host: the address
    [http://:8000] has a scheme and a port but no host, and is accepted. *)
Lemma C6_counterexample :
  main Urllib.urlparse scenario_world bad_url_cmd
  = ([EvStderr "error: argument --api-url: Invalid URL format: not-a-url"], 2%Z)
  /\ snd (main Urllib.urlparse scenario_world bad_url_cmd) <> 1%Z
  /\ Urllib.urlparse "http://:8000" = Some ("http", ":8000")
  /\ Urllib.hostname ":8000" = None
  /\ validate_url Urllib.urlparse "http://:8000" = inr "http://:8000"
  /\ snd (main Urllib.urlparse scenario_world no_host_cmd) = 0%Z.
Proof.
  split; [reflexivity|]. split; [vm_compute; discriminate|].
  repeat split; vm_compute; reflexivity.
Qed.

(** C6, amended: when [urlparse] of [--api-url] raises or gives an empty
    scheme or an empty network location, the process exits with status 2,
    the status of the argument parser's errors, after the error report
    alone: nothing is scanned, created, uploaded or written.  An address
    with a scheme and a network location is accepted as it is, whether the
    location names a host or not.  The exit statuses of the program are 0,
    1 and 2, and 2 is that of an error on the command line. *)
Theorem C6_invalid_url_exit (urlparse : string -> option (string * string))
    (w : world) (c : cmdline) :
  (forall u,
     opt_api_url c = Some u ->
     ~ (exists scheme netloc,
          urlparse u = Some (scheme, netloc)
          /\ scheme <> EmptyString /\ netloc <> EmptyString) ->
     main urlparse w c
     = ([EvStderr ("error: argument --api-url: Invalid URL format: " +:+ u)], 2%Z)
     /\ scans (fst (main urlparse w c)) = [])
  /\ (forall u scheme netloc,
        urlparse u = Some (scheme, netloc) ->
        scheme <> EmptyString -> netloc <> EmptyString ->
        validate_url urlparse u = inr u)
  /\ (snd (main urlparse w c) = 0 \/ snd (main urlparse w c) = 1
      \/ snd (main urlparse w c) = 2)%Z
  /\ (snd (main urlparse w c) = 2%Z <-> exists msg, parse_args urlparse c = inl msg).
Proof.
  split; [|split; [|apply main_codes]].
  - intros u Hu Hno.
    assert (Hm : main urlparse w c
                 = ([EvStderr ("error: argument --api-url: Invalid URL format: " +:+ u)],
                    2%Z)).
    { unfold main, parse_args. rewrite Hu, (validate_url_rejects urlparse u Hno).
      reflexivity. }
    split; [exact Hm|]. rewrite Hm. reflexivity.
  - intros u scheme netloc Hu Hs Hn. unfold validate_url. rewrite Hu.
    apply String.eqb_neq in Hs, Hn. rewrite Hs, Hn. reflexivity.
Qed.

Lemma C6_invalid_url_exit_witness :
  opt_api_url bad_url_cmd = Some "not-a-url"
  /\ main Urllib.urlparse scenario_world bad_url_cmd
     = ([EvStderr "error: argument --api-url: Invalid URL format: not-a-url"], 2%Z).
Proof.
  split; [reflexivity|].
  refine (proj1 (proj1 (C6_invalid_url_exit Urllib.urlparse scenario_world bad_url_cmd)
                   "not-a-url" eq_refl _)).
  intros (scheme & netloc & H & Hs & _). vm_compute in H.
  injection H as <- _. apply Hs. reflexivity.
Defined.

Lemma parse_args_input_dir (urlparse : string -> option (string * string))
    (c : cmdline) (args : namespace) :
  parse_args urlparse c = inr args -> opt_input_dir c = Some (ns_input_dir args).
Proof.
  unfold parse_args.
  destruct (opt_api_url c) as [u|]; [destruct (validate_url urlparse u)|];
    destruct (opt_input_dir c); try discriminate; intros [= <-]; reflexivity.
Qed.

(** C7: when the resolved input directory does not exist the process
    exits with a status other than 0 after reporting the error, and no
    file is touched: nothing is created, uploaded or written.  With a
    well-formed command line the report is the [ValueError] of the
    constructor and the status is 1. *)
Theorem C7_missing_input_dir (urlparse : string -> option (string * string))
    (w : world) (c : cmdline) (d : string) :
  opt_input_dir c = Some d ->
  w_stat w (w_resolve w d) = None ->
  snd (main urlparse w c) <> 0%Z
  /\ uploads (fst (main urlparse w c)) = []
  /\ writes (fst (main urlparse w c)) = []
  /\ mkdirs (fst (main urlparse w c)) = []
  /\ scans (fst (main urlparse w c)) = []
  /\ ((exists msg, parse_args urlparse c = inl msg
                   /\ main urlparse w c = ([EvStderr ("error: " +:+ msg)], 2%Z))
      \/ (exists args, parse_args urlparse c = inr args
                       /\ main urlparse w c
                          = ([EvPrint ("Error: Input directory does not exist: "
                                       +:+ render (w_resolve w d))], 1%Z))).
Proof.
  intros Hd Hstat.
  assert (Hm :
    (exists msg, parse_args urlparse c = inl msg
                 /\ main urlparse w c = ([EvStderr ("error: " +:+ msg)], 2%Z))
    \/ (exists args, parse_args urlparse c = inr args
                     /\ main urlparse w c
                        = ([EvPrint ("Error: Input directory does not exist: "
                                     +:+ render (w_resolve w d))], 1%Z))).
  { unfold main. destruct (parse_args urlparse c) as [msg|args] eqn:Hp.
    - left. eauto.
    - right. exists args. split; [reflexivity|].
      apply parse_args_input_dir in Hp. rewrite Hd in Hp. injection Hp as ->.
      unfold main_run, init. rewrite Hstat. reflexivity. }
  destruct Hm as [(msg & Hp & Hm)|(args & Hp & Hm)]; rewrite Hm; simpl;
    (repeat split; [discriminate|eauto]).
Qed.

Lemma C7_missing_input_dir_witness :
  opt_input_dir missing_dir_cmd = Some "nowhere"
  /\ w_stat scenario_world (w_resolve scenario_world "nowhere") = None
  /\ snd (main Urllib.urlparse scenario_world missing_dir_cmd) <> 0%Z
  /\ uploads (fst (main Urllib.urlparse scenario_world missing_dir_cmd)) = [].
Proof.
  split; [reflexivity|]. split; [reflexivity|].
  pose proof (C7_missing_input_dir Urllib.urlparse scenario_world missing_dir_cmd
                "nowhere" eq_refl eq_refl) as HC.
  split; [exact (proj1 HC)|exact (proj1 (proj2 HC))].
Defined.

(** ** Running twice *)

(** The output tree after a run is what the run writes, laid over what was
    there before. *)
Lemma replay_union (tr : list event) (s : store) : replay tr s = replay tr ∅ ∪ s.
Proof.
  revert s. induction tr as [|ev tr IH]; intros s.
  - simpl. now rewrite (left_id_L ∅ (∪)).
  - change (replay (ev :: tr) s) with (replay tr (apply_event s ev)).
    change (replay (ev :: tr) ∅) with (replay tr (apply_event ∅ ev)).
    destruct ev; simpl; try apply IH.
    rewrite (IH (<[file := content]> s)), (IH (<[file := content]> ∅)).
    rewrite <- (assoc_L (∪)). f_equal.
    rewrite insert_empty. apply insert_union_singleton_l.
Qed.

Lemma replay_idempotent (tr : list event) (s : store) :
  replay tr (replay tr s) = replay tr s.
Proof.
  rewrite (replay_union tr (replay tr s)), (replay_union tr s).
  rewrite (assoc_L (∪)). now rewrite (idemp_L (∪)).
Qed.


(** * Further properties of the script *)

(** ** Safe file names *)

(** [get_safe_filename] leaves no space in its result, changes nothing when
    applied again, and returns a name without spaces as it is. *)
Theorem get_safe_filename_no_space (s : string) :
  (forall i, String.get i (get_safe_filename s) <> Some " "%char)
  /\ get_safe_filename (get_safe_filename s) = get_safe_filename s
  /\ ((forall i, String.get i s <> Some " "%char) -> get_safe_filename s = s).
Proof.
  unfold get_safe_filename. split; [|split].
  - induction s as [|c s IH]; intros i; simpl; [discriminate|].
    destruct i as [|i]; [|apply IH].
    destruct (Ascii.eqb c " ") eqn:E; [discriminate|].
    intros [= ->]. discriminate E.
  - induction s as [|c s IH]; simpl; [reflexivity|]. rewrite IH. f_equal.
    destruct (Ascii.eqb c " ") eqn:E; [reflexivity|]. now rewrite E.
  - induction s as [|c s IH]; intros Hno; simpl; [reflexivity|].
    rewrite IH by (intros i; apply (Hno (S i))). f_equal.
    destruct (Ascii.eqb c " ") eqn:E; [|reflexivity].
    apply Ascii.eqb_eq in E. subst c. now specialize (Hno 0%nat).
Qed.

Lemma get_safe_filename_no_space_witness :
  (forall i, String.get i "report_v2" <> Some " "%char)
  /\ get_safe_filename "report_v2" = "report_v2".
Proof.
  assert (H : forall i, String.get i "report_v2" <> Some " "%char).
  { intros i. do 9 (destruct i as [|i]; [discriminate|]). discriminate. }
  split; [exact H|].
  exact (proj2 (proj2 (get_safe_filename_no_space "report_v2")) H).
Defined.

(** ** Relative paths *)

Lemma relative_to_Some (p base rel : Path) :
  PurePath.relative_to p base = Some rel -> p = base ++ rel.
Proof.
  revert p. induction base as [|b base IH]; intros p; simpl.
  - now intros [= ->].
  - destruct p as [|c p]; [discriminate|].
    destruct (String.eqb b c) eqn:E; [|discriminate].
    apply String.eqb_eq in E. subst c. intros H. f_equal. now apply IH.
Qed.

(** [relative_to] undoes the join with the base: it answers [rel] exactly
    for the path [base / rel].  For a file that is not below the input
    directory [get_relative_path] raises [ValueError], and [save_outputs]
    raises it before it creates a directory or writes a file. *)
Theorem relative_to_round_trip (self : DocumentProcessor) (p rel : Path) (v : json) :
  (PurePath.relative_to p (input_dir self) = Some rel <-> p = input_dir self ++ rel)
  /\ (get_relative_path self p = ([], Returned rel) <-> p = input_dir self ++ rel)
  /\ ((forall rel', p <> input_dir self ++ rel') ->
      exists msg,
        get_relative_path self p = ([], Raised (ValueError msg))
        /\ save_outputs self p v = ([], Raised (ValueError msg))).
Proof.
  split; [|split].
  - split; [apply relative_to_Some|intros ->; apply relative_to_app].
  - unfold get_relative_path. split.
    + destruct (PurePath.relative_to p (input_dir self)) as [rel'|] eqn:E;
        [|discriminate].
      intros [= ->]. now apply relative_to_Some.
    + intros ->. now rewrite relative_to_app.
  - intros Hno. unfold save_outputs, get_relative_path.
    destruct (PurePath.relative_to p (input_dir self)) as [rel'|] eqn:E.
    + apply relative_to_Some in E. now apply Hno in E.
    + eexists. split; reflexivity.
Qed.

Lemma relative_to_round_trip_witness :
  (forall rel', ["tmp"; "x.txt"] <> input_dir scenario_self ++ rel')
  /\ exists msg,
       save_outputs scenario_self ["tmp"; "x.txt"] (JObject [("text", JString "hi")])
       = ([], Raised (ValueError msg)).
Proof.
  assert (H : forall rel', ["tmp"; "x.txt"] <> input_dir scenario_self ++ rel')
    by (intros rel'; discriminate).
  split; [exact H|].
  destruct (proj2 (proj2 (relative_to_round_trip scenario_self ["tmp"; "x.txt"] []
                            (JObject [("text", JString "hi")]))) H)
    as (msg & _ & Hs).
  exists msg. exact Hs.
Defined.

(** ** The filter, again *)

Lemma ignored_name_extension (nm : string) :
  nm ∈ IGNORE_FILES -> PyStr.lower (PurePath.suffix_of nm) ∉ VALID_EXTENSIONS.
Proof.
  unfold IGNORE_FILES. rewrite !elem_of_union, !elem_of_singleton.
  intros [[-> | ->] | ->]; vm_compute; intros H; discriminate H.
Qed.

Lemma should_process_file_suffix (p : Path) :
  should_process_file p
  = bool_decide (PyStr.lower (PurePath.suffix p) ∈ VALID_EXTENSIONS).
Proof.
  unfold should_process_file.
  case_bool_decide as Hi.
  - apply ignored_name_extension in Hi. fold (PurePath.suffix p) in Hi.
    now rewrite bool_decide_false.
  - destruct (bool_decide (PyStr.lower (PurePath.suffix p) ∈ VALID_EXTENSIONS));
      reflexivity.
Qed.

(** The ignore list never decides: each of its three names already fails
    the extension test, so the filter is the extension test alone. *)
Theorem should_process_file_extension_only (p : Path) :
  (PurePath.name p ∈ IGNORE_FILES ->
   PyStr.lower (PurePath.suffix p) ∉ VALID_EXTENSIONS)
  /\ should_process_file p
     = bool_decide (PyStr.lower (PurePath.suffix p) ∈ VALID_EXTENSIONS).
Proof.
  split; [apply ignored_name_extension|apply should_process_file_suffix].
Qed.

Lemma should_process_file_extension_only_witness :
  (PurePath.name ["in"; ".DS_Store"] ∈ IGNORE_FILES)
  /\ (PyStr.lower (PurePath.suffix ["in"; ".DS_Store"]) ∉ VALID_EXTENSIONS).
Proof.
  assert (H : PurePath.name ["in"; ".DS_Store"] ∈ IGNORE_FILES)
    by (vm_compute; reflexivity).
  split; [exact H|].
  exact (proj1 (should_process_file_extension_only ["in"; ".DS_Store"]) H).
Defined.

Lemma substring_take_length (s : string) (i : nat) :
  (i <= String.length s)%nat -> String.length (PyStr.take i s) = i.
Proof.
  unfold PyStr.take. revert i. induction s as [|c s IH]; intros i Hi; simpl in Hi.
  - assert (i = 0)%nat as -> by lia. reflexivity.
  - destruct i as [|i]; [reflexivity|]. simpl. rewrite IH by lia. reflexivity.
Qed.

(** A candidate has a proper extension and a stem that is not empty, so
    the name of its artifacts never starts with the dot of [.json] or
    [.md]. *)
Theorem candidate_has_stem (p : Path) :
  should_process_file p = true ->
  PurePath.suffix p <> EmptyString
  /\ PurePath.stem p <> EmptyString
  /\ get_safe_filename (PurePath.stem p) <> EmptyString
  /\ PurePath.name p = PurePath.stem p +:+ PurePath.suffix p.
Proof.
  intros Hp. rewrite should_process_file_suffix in Hp.
  apply bool_decide_eq_true in Hp.
  assert (Hsuf : PurePath.suffix p <> EmptyString).
  { intros E. rewrite E in Hp. vm_compute in Hp. discriminate Hp. }
  assert (Hstem : PurePath.stem p <> EmptyString).
  { unfold PurePath.suffix, PurePath.suffix_of in Hsuf.
    unfold PurePath.stem, PurePath.stem_of.
    destruct (PyStr.rfind "." (PurePath.name p)) as [i|]; [|contradiction].
    destruct ((0 <? i)%nat && (i <? String.length (PurePath.name p) - 1)%nat) eqn:E;
      [|contradiction].
    apply andb_true_iff in E. destruct E as [E1 E2].
    apply Nat.ltb_lt in E1, E2. intros Hempty.
    pose proof (substring_take_length (PurePath.name p) i ltac:(lia)) as Hl.
    rewrite Hempty in Hl. simpl in Hl. lia. }
  split; [exact Hsuf|]. split; [exact Hstem|]. split.
  - intros E. apply Hstem.
    pose proof (replace_length " " "_" (PurePath.stem p)) as Hl.
    unfold get_safe_filename in E. rewrite E in Hl.
    destruct (PurePath.stem p); [reflexivity|discriminate Hl].
  - apply stem_suffix.
Qed.

Lemma candidate_has_stem_witness :
  should_process_file ["in"; "A"; "report.pptx"] = true
  /\ PurePath.stem ["in"; "A"; "report.pptx"] <> EmptyString.
Proof.
  assert (H : should_process_file ["in"; "A"; "report.pptx"] = true)
    by (vm_compute; reflexivity).
  split; [exact H|].
  exact (proj1 (proj2 (candidate_has_stem ["in"; "A"; "report.pptx"] H))).
Defined.

(** ** Artifacts are not candidates *)

Lemma append_length (s t : string) :
  String.length (s +:+ t) = (String.length s + String.length t)%nat.
Proof.
  induction s as [|c s IH]; [reflexivity|].
  rewrite append_String. simpl. now rewrite IH.
Qed.

Lemma rfind_append (c : ascii) (s t : string) :
  PyStr.rfind c (s +:+ t)
  = match PyStr.rfind c t with
    | Some j => Some (String.length s + j)%nat
    | None => PyStr.rfind c s
    end.
Proof.
  induction s as [|a s IH].
  - change (EmptyString +:+ t) with t. destruct (PyStr.rfind c t); reflexivity.
  - rewrite append_String. simpl. rewrite IH.
    destruct (PyStr.rfind c t); reflexivity.
Qed.

Lemma drop_append (s t : string) : PyStr.drop (String.length s) (s +:+ t) = t.
Proof.
  unfold PyStr.drop. rewrite append_length.
  replace (String.length s + String.length t - String.length s)%nat
    with (String.length t) by lia.
  induction s as [|a s IH].
  - change (EmptyString +:+ t) with t. apply substring_all.
  - rewrite append_String. simpl. exact IH.
Qed.

(** The suffix of a name that ends in an extension [ext] of its own. *)
Lemma suffix_of_append (s ext : string) :
  PyStr.rfind "." ext = Some 0%nat ->
  (2 <= String.length ext)%nat ->
  PurePath.suffix_of (s +:+ ext)
  = if (0 <? String.length s)%nat then ext else EmptyString.
Proof.
  intros Hr Hl. unfold PurePath.suffix_of.
  rewrite rfind_append, Hr, append_length, Nat.add_0_r.
  destruct (0 <? String.length s)%nat eqn:E; simpl; [|reflexivity].
  assert ((String.length s <? String.length s + String.length ext - 1)%nat = true)
    as -> by (apply Nat.ltb_lt; lia).
  apply drop_append.
Qed.

Lemma artifact_name_rejected (dir : Path) (s ext : string) :
  ext = ".json" \/ ext = ".md" ->
  should_process_file (dir ++ [s +:+ ext]) = false.
Proof.
  intros Hext. rewrite should_process_file_suffix.
  unfold PurePath.suffix. rewrite name_snoc.
  rewrite suffix_of_append by (destruct Hext as [-> | ->]; simpl; (reflexivity || lia)).
  destruct (0 <? String.length s)%nat; destruct Hext as [-> | ->];
    vm_compute; reflexivity.
Qed.

(** No file that [save_outputs] writes passes the filter: an output
    directory placed inside the input directory never feeds artifacts back
    into a later run. *)
Theorem artifacts_never_candidates (self : DocumentProcessor) (file_path : Path)
    (v : json) (p : Path) (content : string) :
  In (p, content) (writes (trace (save_outputs self file_path v))) ->
  should_process_file p = false.
Proof.
  intros Hin.
  destruct (PurePath.relative_to file_path (input_dir self)) as [rel|] eqn:E.
  - apply relative_to_Some in E. subst file_path.
    rewrite save_outputs_writes in Hin. destruct Hin as [Hin|Hin].
    + injection Hin as <- _. unfold json_path. apply artifact_name_rejected. now left.
    + destruct (save_text_writes self (input_dir self ++ rel) rel v) as [H|[text H]];
        rewrite H in Hin; [contradiction|].
      destruct Hin as [Hin|[]]. injection Hin as <- _.
      unfold md_path. apply artifact_name_rejected. now right.
  - unfold save_outputs, get_relative_path in Hin. rewrite E in Hin. contradiction.
Qed.

Lemma artifacts_never_candidates_witness :
  In (["output"; "json"; "A"; "report.json"],
      Json.dumps (JObject [("text", JString "hello")]))
     (writes (trace (save_outputs scenario_self ["in"; "A"; "report.pptx"]
                       (JObject [("text", JString "hello")]))))
  /\ should_process_file ["output"; "json"; "A"; "report.json"] = false.
Proof.
  assert (H : In (["output"; "json"; "A"; "report.json"],
                  Json.dumps (JObject [("text", JString "hello")]))
                 (writes (trace (save_outputs scenario_self ["in"; "A"; "report.pptx"]
                                   (JObject [("text", JString "hello")])))))
    by (left; reflexivity).
  split; [exact H|].
  exact (artifacts_never_candidates scenario_self ["in"; "A"; "report.pptx"]
           (JObject [("text", JString "hello")]) _ _ H).
Defined.

(** ** The API address *)

Lemma rstrip_spec (c : ascii) (s : string) :
  (exists n, s = PyStr.rstrip c s +:+ repeat_char c n)
  /\ (forall t, PyStr.rstrip c s <> t +:+ String c EmptyString).
Proof.
  induction s as [|a s [[n IHn] IHe]].
  - split; [exists 0%nat; reflexivity|].
    intros [|x t]; discriminate.
  - simpl. destruct (PyStr.rstrip c s) as [|x r] eqn:Er.
    + destruct (Ascii.eqb a c) eqn:Ea.
      * apply Ascii.eqb_eq in Ea. subst a. split.
        -- exists (S n). now rewrite IHn at 1.
        -- intros [|y t]; discriminate.
      * split.
        -- exists n. rewrite append_String. now rewrite IHn at 1.
        -- intros [|y t]; rewrite ?append_String.
           ++ intros [= ->]. now rewrite Ascii.eqb_refl in Ea.
           ++ intros [= _ H]. destruct t; discriminate H.
    + split.
      * exists n. rewrite append_String. now rewrite IHn at 1.
      * intros [|y t]; rewrite ?append_String.
        -- discriminate.
        -- intros [= _ H]. now apply (IHe t).
Qed.

(** The address kept by the constructor is the given one without its
    trailing slashes, so the request address [<api_url>/parse_document/ppt]
    never has two slashes before [parse_document]. *)
Theorem init_api_url_stripped (w : world) (url input output : string)
    (self : DocumentProcessor) :
  result (init w url input output) = Returned self ->
  (exists n, url = api_url self +:+ repeat_char "/" n)
  /\ (forall t, api_url self <> t +:+ "/").
Proof.
  intros H. apply init_returned in H. destruct H as [-> _]. simpl.
  apply rstrip_spec.
Qed.

Lemma init_api_url_stripped_witness :
  result (init scenario_world "http://localhost:8000/" "in" "output")
  = Returned scenario_self
  /\ exists n, "http://localhost:8000/" = api_url scenario_self +:+ repeat_char "/" n.
Proof.
  assert (H : result (init scenario_world "http://localhost:8000/" "in" "output")
              = Returned scenario_self) by reflexivity.
  split; [exact H|].
  exact (proj1 (init_api_url_stripped scenario_world "http://localhost:8000/" "in"
                  "output" scenario_self H)).
Defined.

(** ** One upload, in full *)

(** [process_single_file] never raises; it opens the file once, sends at
    most one request (none when the file cannot be opened), always to
    [<api_url>/parse_document/ppt] under the file's own name, writes
    nothing, and returns a result exactly when the status is 200 and the
    body parses. *)
Theorem process_single_file_spec (w : world) (self : DocumentProcessor)
    (file_path : Path) :
  (exists r, result (process_single_file w self file_path) = Returned r)
  /\ uploads (trace (process_single_file w self file_path)) = [file_path]
  /\ writes (trace (process_single_file w self file_path)) = []
  /\ posts (trace (process_single_file w self file_path))
     = match w_api w file_path with
       | OpenFails _ => []
       | _ => [(api_url self +:+ "/parse_document/ppt", PurePath.name file_path)]
       end
  /\ (forall v,
        result (process_single_file w self file_path) = Returned (Some v)
        <-> w_api w file_path = Responds 200 (inr v)).
Proof.
  unfold process_single_file.
  destruct (w_api w file_path) as [msg|msg|status body].
  - repeat split; eauto; discriminate.
  - repeat split; eauto; discriminate.
  - destruct (status =? 200)%Z eqn:Hs.
    + apply Z.eqb_eq in Hs. subst status.
      destruct body as [msg|v]; cbn.
      * repeat split; eauto; discriminate.
      * repeat split; eauto; congruence.
    + cbn. repeat split; eauto; try discriminate.
      intros [= -> _]. discriminate Hs.
Qed.

(** ** The loop, file by file *)

Lemma uploads_app (tr1 tr2 : list event) :
  uploads (tr1 ++ tr2) = uploads tr1 ++ uploads tr2.
Proof. unfold uploads. apply flat_map_app. Qed.

Lemma process_single_file_shape (w : world) (self : DocumentProcessor)
    (file_path : Path) :
  exists sent r,
    process_single_file w self file_path = (EvOpen file_path :: sent, Returned r)
    /\ uploads sent = [] /\ writes sent = [].
Proof.
  unfold process_single_file.
  destruct (w_api w file_path) as [msg|msg|status body].
  - do 2 eexists. split; [reflexivity|]. split; reflexivity.
  - do 2 eexists. split; [reflexivity|]. split; reflexivity.
  - destruct (status =? 200)%Z eqn:Hs; [destruct body as [msg|v]|];
      cbn; do 2 eexists; (split; [reflexivity|]); split; reflexivity.
Qed.

Lemma save_outputs_no_upload (self : DocumentProcessor) (file_path : Path) (v : json) :
  uploads (trace (save_outputs self file_path v)) = [].
Proof.
  destruct (PurePath.relative_to file_path (input_dir self)) as [rel|] eqn:E.
  - apply relative_to_Some in E. subst file_path. rewrite save_outputs_under.
    cbn [trace fst]. unfold save_text.
    destruct (Py.contains "text" v) as [e|[|]]; try reflexivity.
    destruct (Py.getitem "text" v) as [e|[]]; reflexivity.
  - unfold save_outputs, get_relative_path. rewrite E. reflexivity.
Qed.

Lemma uploads_print (text : string) (tr : list event) :
  uploads (EvPrint text :: tr) = uploads tr.
Proof. reflexivity. Qed.

Lemma uploads_open (file : Path) (tr : list event) :
  uploads (EvOpen file :: tr) = file :: uploads tr.
Proof. reflexivity. Qed.

(** One turn of the loop: the events of the file, after which the loop
    either goes on with the rest or stops on an exception of the writer. *)
Lemma process_files_step (w : world) (self : DocumentProcessor)
    (total_files idx : nat) (rel : Path) (rest : list Path) :
  exists head,
    uploads head = [input_dir self ++ rel]
    /\ (process_files w self total_files idx ((input_dir self ++ rel) :: rest)
        = (head ++ trace (process_files w self total_files (S idx) rest),
           result (process_files w self total_files (S idx) rest))
        \/ exists e,
             process_files w self total_files idx ((input_dir self ++ rel) :: rest)
             = (head, Raised e)).
Proof.
  destruct (process_single_file_shape w self (input_dir self ++ rel))
    as (sent & r & Hpsf & Hup & _).
  pose proof (save_outputs_no_upload self (input_dir self ++ rel)) as Hsave.
  rewrite process_files_cons, bind_print.
  rewrite (bind_returned _ _ _ _ Hpsf). cbn [trace result fst snd app].
  set (P := "Processing [" +:+ str_nat idx +:+ "/" +:+ str_nat total_files
            +:+ "]: " +:+ render_rel rel).
  destruct (process_files w self total_files (S idx) rest) as [trr rr].
  cbn [trace result fst snd].
  assert (Hfail :
    exists head,
      uploads head = [input_dir self ++ rel]
      /\ ((EvPrint P :: EvOpen (input_dir self ++ rel)
             :: sent ++ EvPrint ("Failed to process: " +:+ render_rel rel) :: trr, rr)
          = (head ++ trr, rr)
          \/ exists e,
               (EvPrint P :: EvOpen (input_dir self ++ rel)
                  :: sent ++ EvPrint ("Failed to process: " +:+ render_rel rel) :: trr,
                rr)
               = (head, Raised e))).
  { exists (EvPrint P :: EvOpen (input_dir self ++ rel)
              :: sent ++ [EvPrint ("Failed to process: " +:+ render_rel rel)]).
    split.
    - rewrite uploads_print, uploads_open, uploads_app, Hup. reflexivity.
    - left. cbn [app]. rewrite <- app_assoc. reflexivity. }
  destruct r as [v|]; [destruct (Py.truthy v) eqn:Ht|].
  - specialize (Hsave v).
    destruct (save_outputs self (input_dir self ++ rel) v) as [trs [[]|e]];
      cbn [trace fst] in Hsave; cbn.
    + exists (EvPrint P :: EvOpen (input_dir self ++ rel)
                :: sent ++ trs
                ++ [EvPrint ("Successfully processed: " +:+ render_rel rel)]).
      split.
      * rewrite uploads_print, uploads_open, !uploads_app, Hup, Hsave. reflexivity.
      * left. cbn [app]. rewrite <- !app_assoc. reflexivity.
    + exists (EvPrint P :: EvOpen (input_dir self ++ rel) :: sent ++ trs).
      split.
      * rewrite uploads_print, uploads_open, !uploads_app, Hup, Hsave. reflexivity.
      * right. exists e. reflexivity.
  - cbn. exact Hfail.
  - cbn. exact Hfail.
Qed.

(** The loop uploads the files in the order of the list, each one once,
    and never skips one: what it has uploaded is always a prefix of the
    list, and the whole list when the loop returns. *)
Theorem process_files_uploads_in_order (w : world) (self : DocumentProcessor)
    (total_files : nat) (files : list Path) :
  forall idx,
    (exists k, uploads (trace (process_files w self total_files idx files))
               = List.firstn k files)
    /\ (result (process_files w self total_files idx files) = Returned tt ->
        uploads (trace (process_files w self total_files idx files)) = files).
Proof.
  induction files as [|file_path rest IH]; intros idx.
  - split; [exists 0%nat; reflexivity|reflexivity].
  - destruct (PurePath.relative_to file_path (input_dir self)) as [rel|] eqn:E.
    + apply relative_to_Some in E. subst file_path.
      destruct (process_files_step w self total_files idx rel rest)
        as (head & Hu & [Hgo|[e Hstop]]); unfold PurePath.t in *.
      * rewrite Hgo. cbn [trace result fst snd]. rewrite uploads_app, Hu.
        destruct (IH (S idx)) as [[k Hk] Hall]. split.
        -- exists (S k). rewrite Hk. reflexivity.
        -- intros Hr. rewrite (Hall Hr). reflexivity.
      * rewrite Hstop. cbn [trace result fst snd]. rewrite Hu. split.
        -- exists 1%nat. reflexivity.
        -- discriminate.
    + cbn [process_files]. unfold get_relative_path. rewrite E. cbn. split.
      * exists 0%nat. reflexivity.
      * discriminate.
Qed.

Lemma process_files_uploads_in_order_witness :
  result (process_files scenario_world scenario_self 2 1
            [["in"; "A"; "report.pptx"]; ["in"; "A"; "notes.txt"]]) = Returned tt
  /\ uploads (trace (process_files scenario_world scenario_self 2 1
                       [["in"; "A"; "report.pptx"]; ["in"; "A"; "notes.txt"]]))
     = [["in"; "A"; "report.pptx"]; ["in"; "A"; "notes.txt"]].
Proof.
  assert (H : result (process_files scenario_world scenario_self 2 1
                        [["in"; "A"; "report.pptx"]; ["in"; "A"; "notes.txt"]])
              = Returned tt) by reflexivity.
  split; [exact H|].
  exact (proj2 (process_files_uploads_in_order scenario_world scenario_self 2
                  [["in"; "A"; "report.pptx"]; ["in"; "A"; "notes.txt"]] 1%nat) H).
Defined.

(** ** Which results reach the writer *)

Lemma truthy_false_iff (v : json) : Py.truthy v = false <-> In v falsy_results.
Proof.
  unfold falsy_results. split.
  - destruct v as [|[]|n|r|s|[|x items]|[|kv fields]]; simpl; try discriminate; try tauto.
    + intros H. apply negb_false_iff, Z.eqb_eq in H. subst n. tauto.
    + intros H. apply negb_false_iff, orb_true_iff in H.
      destruct H as [H|H]; apply String.eqb_eq in H; subst r; tauto.
    + intros H. apply negb_false_iff, String.eqb_eq in H. subst s. tauto.
  - simpl. intros H.
    repeat destruct H as [<-|H]; try reflexivity. contradiction.
Qed.

(** After a status 200 with a body that parses to [v], the writer is called
    exactly when Python takes [v] for true.  Then the structured artifact
    is written with [json.dumps] of [v]; otherwise, that is for [null],
    [false], [0], [0.0], [-0.0], the empty string, [[]] and [{}], the file
    is reported as failed, nothing is written for it and the loop goes on. *)
Theorem result_saved_iff_truthy (w : world) (self : DocumentProcessor)
    (total_files idx : nat) (rel : Path) (rest : list Path) (v : json) :
  w_api w (input_dir self ++ rel) = Responds 200 (inr v) ->
  (Py.truthy v = false <-> In v falsy_results)
  /\ (Py.truthy v = true ->
      In (json_path self (input_dir self ++ rel) rel, Json.dumps v)
         (writes (trace (process_files w self total_files idx
                           ((input_dir self ++ rel) :: rest)))))
  /\ (Py.truthy v = false ->
      process_files w self total_files idx ((input_dir self ++ rel) :: rest)
      = (EvPrint ("Processing [" +:+ str_nat idx +:+ "/" +:+ str_nat total_files
                  +:+ "]: " +:+ render_rel rel)
           :: EvOpen (input_dir self ++ rel)
           :: EvPost (api_url self +:+ "/parse_document/ppt")
                (PurePath.name (input_dir self ++ rel))
           :: EvPrint ("Failed to process: " +:+ render_rel rel)
           :: trace (process_files w self total_files (S idx) rest),
         result (process_files w self total_files (S idx) rest))).
Proof.
  intros Ha. split; [apply truthy_false_iff|]. split.
  - intros Ht.
    assert (Hw : In (json_path self (input_dir self ++ rel) rel, Json.dumps v)
                    (writes (trace (save_outputs self (input_dir self ++ rel) v))))
      by (rewrite save_outputs_writes; now left).
    destruct (result (save_outputs self (input_dir self ++ rel) v)) as [[]|e] eqn:Hs.
    + rewrite (process_files_saved w self _ _ _ _ _ Ha Ht Hs). cbn [trace fst].
      change (EvPrint ?x :: ?l) with ([EvPrint x] ++ l).
      rewrite !writes_app. apply in_or_app. right. apply in_or_app. right.
      apply in_or_app. now left.
    + rewrite (process_files_save_raised w self _ _ _ _ _ _ Ha Ht Hs). cbn [trace fst].
      change (EvPrint ?x :: ?l) with ([EvPrint x] ++ l).
      rewrite !writes_app. apply in_or_app. right. apply in_or_app. now right.
  - intros Ht. rewrite (process_files_falsy w self _ _ _ _ _ Ha Ht).
    rewrite (process_single_file_success w self _ _ Ha). reflexivity.
Qed.

Lemma result_saved_iff_truthy_witness :
  w_api scenario_world (input_dir scenario_self ++ ["A"; "notes.txt"])
  = Responds 200 (inr (JObject [("summary", JString "ok")]))
  /\ In (["output"; "json"; "A"; "notes.json"],
         Json.dumps (JObject [("summary", JString "ok")]))
        (writes (trace (process_files scenario_world scenario_self 2 2
                          [["in"; "A"; "notes.txt"]]))).
Proof.
  assert (H : w_api scenario_world (input_dir scenario_self ++ ["A"; "notes.txt"])
              = Responds 200 (inr (JObject [("summary", JString "ok")])))
    by reflexivity.
  split; [exact H|].
  exact (proj1 (proj2 (result_saved_iff_truthy scenario_world scenario_self 2 2
                         ["A"; "notes.txt"] [] _ H)) eq_refl).
Defined.

(** ** An exception of the writer *)

(** The writer runs outside the uploader's [try]: when [save_outputs]
    raises for a file, the loop stops with that exception and no later
    file is uploaded. *)
Theorem writer_exception_stops_loop (w : world) (self : DocumentProcessor)
    (total_files idx : nat) (rel : Path) (rest : list Path) (v : json) (e : exn) :
  w_api w (input_dir self ++ rel) = Responds 200 (inr v) ->
  Py.truthy v = true ->
  result (save_outputs self (input_dir self ++ rel) v) = Raised e ->
  result (process_files w self total_files idx ((input_dir self ++ rel) :: rest))
  = Raised e
  /\ uploads (trace (process_files w self total_files idx
                       ((input_dir self ++ rel) :: rest)))
     = [input_dir self ++ rel]
  /\ ~ In (EvPrint ("Successfully processed: " +:+ render_rel rel))
          (trace (process_files w self total_files idx
                    ((input_dir self ++ rel) :: rest))).
Proof.
  intros Ha Ht Hs.
  rewrite (process_files_save_raised w self _ _ _ _ _ _ Ha Ht Hs).
  rewrite (process_single_file_success w self _ _ Ha). cbn [trace result fst snd].
  split; [reflexivity|]. split.
  - cbn [app]. rewrite uploads_print, uploads_open.
    change (uploads (EvPost ?u ?f :: ?l)) with (uploads l).
    rewrite save_outputs_no_upload. reflexivity.
  - cbn [app]. rewrite save_outputs_under. cbn [trace fst].
    intros [H|[H|[H|[H|[H|[H|H]]]]]]; try discriminate H.
    unfold save_text in H.
    destruct (Py.contains "text" v) as [x|[|]]; cbn in H; try contradiction.
    destruct (Py.getitem "text" v) as [x|[]]; cbn in H;
      destruct H as [H|H]; try discriminate H; try contradiction.
Qed.

Lemma writer_exception_stops_loop_witness :
  result (save_outputs scenario_self (input_dir scenario_self ++ ["A"; "report.pptx"])
            (JObject [("text", JInt 5)]))
  = Raised (TypeError "write() argument must be str, not int")
  /\ uploads (trace (process_files bad_text_world scenario_self 2 1
                       [["in"; "A"; "report.pptx"]; ["in"; "A"; "notes.txt"]]))
     = [["in"; "A"; "report.pptx"]].
Proof.
  assert (H : result (save_outputs scenario_self
                        (input_dir scenario_self ++ ["A"; "report.pptx"])
                        (JObject [("text", JInt 5)]))
              = Raised (TypeError "write() argument must be str, not int"))
    by reflexivity.
  split; [exact H|].
  exact (proj1 (proj2 (writer_exception_stops_loop bad_text_world scenario_self 2 1
                         ["A"; "report.pptx"] [["in"; "A"; "notes.txt"]]
                         (JObject [("text", JInt 5)]) _ eq_refl eq_refl H))).
Defined.

(** ** The exit status *)

Lemma init_exists (w : world) (args : namespace) :
  is_Some (w_stat w (w_resolve w (ns_input_dir args))) ->
  init w (ns_api_url args) (ns_input_dir args) (ns_output_dir args)
  = ([EvMkdir (w_resolve w (ns_output_dir args));
      EvMkdir (w_resolve w (ns_output_dir args) ++ ["json"]);
      EvMkdir (w_resolve w (ns_output_dir args) ++ ["markdown"]);
      EvPrint ("Input directory: " +:+ render (w_resolve w (ns_input_dir args)));
      EvPrint ("Output directory: " +:+ render (w_resolve w (ns_output_dir args)))],
     Returned (processor_of w args)).
Proof.
  intros Hs. unfold init. rewrite bool_decide_true by exact Hs. reflexivity.
Qed.

Lemma main_run_returned (w : world) (args : namespace) (self : DocumentProcessor)
    (tr1 tr2 : list event) :
  init w (ns_api_url args) (ns_input_dir args) (ns_output_dir args)
  = (tr1, Returned self) ->
  process_directory w self = (tr2, Returned tt) ->
  main_run w args = (tr1 ++ tr2, Returned 0%Z).
Proof.
  intros Hi Hp. unfold main_run. rewrite Hi. cbn [bind]. rewrite Hp. cbn.
  rewrite !app_nil_r. reflexivity.
Qed.

Lemma main_run_raised (w : world) (args : namespace) (self : DocumentProcessor)
    (tr1 tr2 : list event) (e : exn) :
  init w (ns_api_url args) (ns_input_dir args) (ns_output_dir args)
  = (tr1, Returned self) ->
  process_directory w self = (tr2, Raised e) ->
  main_run w args
  = (tr1 ++ tr2
       ++ [EvPrint ((match e with
                     | ValueError _ => "Error: "
                     | _ => "Unexpected error: "
                     end) +:+ exn_str e)],
     Returned 1%Z).
Proof.
  intros Hi Hp. unfold main_run. rewrite Hi. cbn [bind]. rewrite Hp.
  destruct e; cbn; rewrite ?app_nil_r, <- ?app_assoc; reflexivity.
Qed.

Lemma process_directory_no_candidates (w : world) (self : DocumentProcessor) :
  get_all_files w self = [] ->
  process_directory w self
  = ([EvScan (input_dir self);
      EvPrint ("No processable files found in " +:+ render (input_dir self))],
     Returned tt).
Proof. intros H. unfold process_directory. rewrite H. reflexivity. Qed.

Lemma main_no_candidates (urlparse : string -> option (string * string))
    (w : world) (c : cmdline) (args : namespace) :
  parse_args urlparse c = inr args ->
  is_Some (w_stat w (w_resolve w (ns_input_dir args))) ->
  get_all_files w (processor_of w args) = [] ->
  main urlparse w c
  = ([EvMkdir (w_resolve w (ns_output_dir args));
      EvMkdir (w_resolve w (ns_output_dir args) ++ ["json"]);
      EvMkdir (w_resolve w (ns_output_dir args) ++ ["markdown"]);
      EvPrint ("Input directory: " +:+ render (w_resolve w (ns_input_dir args)));
      EvPrint ("Output directory: " +:+ render (w_resolve w (ns_output_dir args)));
      EvScan (w_resolve w (ns_input_dir args));
      EvPrint ("No processable files found in "
               +:+ render (w_resolve w (ns_input_dir args)))],
     0%Z).
Proof.
  intros Hp Hs He. unfold main. rewrite Hp.
  rewrite (main_run_returned w args _ _ _ (init_exists w args Hs)
             (process_directory_no_candidates w _ He)).
  reflexivity.
Qed.

(** With no candidate in the input tree the run creates the three output
    directories, prints that it found nothing to process and exits with
    status 0: nothing is uploaded or written. *)
Theorem no_candidates_exit_0 (urlparse : string -> option (string * string))
    (w : world) (c : cmdline) (args : namespace) :
  parse_args urlparse c = inr args ->
  is_Some (w_stat w (w_resolve w (ns_input_dir args))) ->
  get_all_files w (processor_of w args) = [] ->
  snd (main urlparse w c) = 0%Z
  /\ List.last (prints (fst (main urlparse w c))) EmptyString
     = "No processable files found in " +:+ render (w_resolve w (ns_input_dir args))
  /\ mkdirs (fst (main urlparse w c))
     = [w_resolve w (ns_output_dir args);
        w_resolve w (ns_output_dir args) ++ ["json"];
        w_resolve w (ns_output_dir args) ++ ["markdown"]]
  /\ uploads (fst (main urlparse w c)) = []
  /\ posts (fst (main urlparse w c)) = []
  /\ writes (fst (main urlparse w c)) = [].
Proof.
  intros Hp Hs He. rewrite (main_no_candidates urlparse w c args Hp Hs He).
  repeat split.
Qed.

Lemma no_candidates_exit_0_witness :
  parse_args Urllib.urlparse scenario_cmd
  = inr {| ns_api_url := "http://localhost:8000/"; ns_input_dir := "in";
           ns_output_dir := "output" |}
  /\ snd (main Urllib.urlparse (mk_world [Dir "B" [File "skip.ini"]] scenario_api)
            scenario_cmd) = 0%Z.
Proof.
  assert (H : parse_args Urllib.urlparse scenario_cmd
              = inr {| ns_api_url := "http://localhost:8000/"; ns_input_dir := "in";
                       ns_output_dir := "output" |}) by reflexivity.
  split; [exact H|].
  refine (proj1 (no_candidates_exit_0 Urllib.urlparse
                   (mk_world [Dir "B" [File "skip.ini"]] scenario_api)
                   scenario_cmd _ H _ _)).
  - vm_compute. eexists. reflexivity.
  - vm_compute. reflexivity.
Defined.

(** An input path that exists but is not a directory (a regular file, a
    socket) is not an error: the walk finds nothing below it and the run
    ends like one over an empty tree, with status 0. *)
Theorem input_not_a_directory (urlparse : string -> option (string * string))
    (w : world) (c : cmdline) (args : namespace) :
  parse_args urlparse c = inr args ->
  w_stat w (w_resolve w (ns_input_dir args)) = Some IsFile
  \/ w_stat w (w_resolve w (ns_input_dir args)) = Some IsOther ->
  get_all_files w (processor_of w args) = []
  /\ snd (main urlparse w c) = 0%Z
  /\ uploads (fst (main urlparse w c)) = []
  /\ writes (fst (main urlparse w c)) = [].
Proof.
  intros Hp Hs.
  assert (He : get_all_files w (processor_of w args) = [])
    by (unfold get_all_files; cbn [input_dir processor_of];
        destruct Hs as [-> | ->]; reflexivity).
  assert (Hx : is_Some (w_stat w (w_resolve w (ns_input_dir args))))
    by (destruct Hs as [-> | ->]; eauto).
  rewrite (main_no_candidates urlparse w c args Hp Hx He). repeat split. exact He.
Qed.

Lemma input_not_a_directory_witness :
  parse_args Urllib.urlparse scenario_cmd
  = inr {| ns_api_url := "http://localhost:8000/"; ns_input_dir := "in";
           ns_output_dir := "output" |}
  /\ snd (main Urllib.urlparse
            {| w_resolve := fun d => [d]; w_stat := fun _ => Some IsFile;
               w_api := scenario_api |} scenario_cmd) = 0%Z.
Proof.
  assert (H : parse_args Urllib.urlparse scenario_cmd
              = inr {| ns_api_url := "http://localhost:8000/"; ns_input_dir := "in";
                       ns_output_dir := "output" |}) by reflexivity.
  split; [exact H|].
  exact (proj1 (proj2 (input_not_a_directory Urllib.urlparse
                         {| w_resolve := fun d => [d]; w_stat := fun _ => Some IsFile;
                            w_api := scenario_api |}
                         scenario_cmd _ H (or_introl eq_refl)))).
Defined.


(** ** A run in which every upload fails *)

Lemma get_all_files_under (w : world) (self : DocumentProcessor) (p : Path) :
  In p (get_all_files w self) -> exists rel, p = input_dir self ++ rel.
Proof.
  destruct (w_stat w (input_dir self)) as [[| |children]|] eqn:Hs;
    try (unfold get_all_files; rewrite Hs; simpl; contradiction).
  intros Hin. apply (get_all_files_spec w self children p Hs) in Hin.
  destruct Hin as (rel & -> & _). eauto.
Qed.

Lemma process_files_failed (w : world) (self : DocumentProcessor)
    (total_files idx : nat) (rel : Path) (rest : list Path) (reason : string) :
  failure_reason (w_api w (input_dir self ++ rel)) = Some reason ->
  exists sent,
    uploads sent = [] /\ writes sent = []
    /\ process_files w self total_files idx ((input_dir self ++ rel) :: rest)
       = (EvPrint ("Processing [" +:+ str_nat idx +:+ "/" +:+ str_nat total_files
                   +:+ "]: " +:+ render_rel rel)
            :: EvOpen (input_dir self ++ rel)
            :: sent ++ trace (process_files w self total_files (S idx) rest),
          result (process_files w self total_files (S idx) rest)).
Proof.
  intros Hf.
  destruct (process_single_file_failure w self _ _ Hf) as (sent & Hrun & Hsent).
  exists (sent ++ [EvPrint ("Error processing " +:+ render (input_dir self ++ rel)
                            +:+ ": " +:+ reason);
                   EvPrint ("Failed to process: " +:+ render_rel rel)]).
  split; [|split].
  - destruct Hsent as [-> | ->]; reflexivity.
  - destruct Hsent as [-> | ->]; reflexivity.
  - rewrite process_files_cons, bind_print.
    rewrite (bind_returned _ _ _ _ Hrun). cbn [trace result fst snd].
    rewrite bind_print. cbn [trace result fst snd app].
    rewrite <- !app_assoc. reflexivity.
Qed.

Lemma process_files_all_failed (w : world) (self : DocumentProcessor)
    (total_files : nat) (files : list Path) :
  (forall p, In p files ->
     (exists rel, p = input_dir self ++ rel) /\ failure_reason (w_api w p) <> None) ->
  forall idx,
    result (process_files w self total_files idx files) = Returned tt
    /\ writes (trace (process_files w self total_files idx files)) = []
    /\ uploads (trace (process_files w self total_files idx files)) = files.
Proof.
  induction files as [|file_path rest IH]; intros Hall idx.
  - repeat split.
  - destruct (Hall file_path (or_introl eq_refl)) as [[rel ->] Hf].
    destruct (failure_reason (w_api w (input_dir self ++ rel))) as [reason|] eqn:Hr;
      [|contradiction].
    destruct (process_files_failed w self total_files idx rel rest reason Hr)
      as (sent & Hu & Hw & Heq).
    destruct (IH (fun p Hp => Hall p (or_intror Hp)) (S idx)) as (Hres & Hwr & Hup).
    unfold PurePath.t in *. rewrite Heq. cbn [trace result fst snd].
    split; [exact Hres|]. split.
    + change (writes (EvPrint ?x :: EvOpen ?f :: ?l)) with (writes l).
      rewrite writes_app, Hw, Hwr. reflexivity.
    + rewrite uploads_print, uploads_open, uploads_app, Hu, Hup. reflexivity.
Qed.

(** Failed uploads do not change the exit status: when every candidate's
    upload fails, each of them is still tried once, in order, nothing is
    written, and the process exits with status 0. *)
Theorem all_uploads_fail_exit_0 (urlparse : string -> option (string * string))
    (w : world) (c : cmdline) (args : namespace) :
  parse_args urlparse c = inr args ->
  is_Some (w_stat w (w_resolve w (ns_input_dir args))) ->
  (forall p, In p (get_all_files w (processor_of w args)) ->
     failure_reason (w_api w p) <> None) ->
  snd (main urlparse w c) = 0%Z
  /\ writes (fst (main urlparse w c)) = []
  /\ uploads (fst (main urlparse w c)) = get_all_files w (processor_of w args).
Proof.
  intros Hp Hs Hall.
  set (self := processor_of w args) in *.
  destruct (process_files_all_failed w self (length (get_all_files w self))
              (get_all_files w self)
              (fun p Hin => conj (get_all_files_under w self p Hin) (Hall p Hin)) 1%nat)
    as (Hres & Hwr & Hup).
  assert (Hd : exists tr,
    process_directory w self = (tr, Returned tt)
    /\ writes tr = [] /\ uploads tr = get_all_files w self).
  { unfold process_directory.
    destruct (get_all_files w self) as [|f files] eqn:Hfiles.
    - eexists. split; [reflexivity|]. split; reflexivity.
    - rewrite bind_emit. cbn [trace result fst snd].
      change (length (f :: files) =? 0)%nat with false. cbn iota.
      rewrite bind_print. cbn [trace result fst snd]. rewrite Hres.
      eexists. split; [reflexivity|]. split.
      + change (writes (EvScan ?d :: EvPrint ?x :: ?l)) with (writes l). exact Hwr.
      + change (uploads (EvScan ?d :: EvPrint ?x :: ?l)) with (uploads l). exact Hup. }
  destruct Hd as (tr & Hd & Hw & Hu).
  unfold main. rewrite Hp.
  rewrite (main_run_returned w args _ _ _ (init_exists w args Hs) Hd).
  cbn [fst snd]. split; [reflexivity|]. split.
  - rewrite writes_app, Hw. reflexivity.
  - rewrite uploads_app, Hu. reflexivity.
Qed.

Lemma all_uploads_fail_exit_0_witness :
  parse_args Urllib.urlparse scenario_cmd
  = inr {| ns_api_url := "http://localhost:8000/"; ns_input_dir := "in";
           ns_output_dir := "output" |}
  /\ snd (main Urllib.urlparse (mk_world scenario_tree (fun _ => OpenFails "denied"))
            scenario_cmd) = 0%Z.
Proof.
  assert (H : parse_args Urllib.urlparse scenario_cmd
              = inr {| ns_api_url := "http://localhost:8000/"; ns_input_dir := "in";
                       ns_output_dir := "output" |}) by reflexivity.
  split; [exact H|].
  refine (proj1 (all_uploads_fail_exit_0 Urllib.urlparse
                   (mk_world scenario_tree (fun _ => OpenFails "denied"))
                   scenario_cmd _ H _ _)).
  - vm_compute. eexists. reflexivity.
  - intros p _. discriminate.
Defined.

(** ** Where a run writes *)

Lemma bind_Forall {A B} (P : event -> Prop) (m : M A) (k : A -> M B) :
  List.Forall P (trace m) ->
  (forall a, result m = Returned a -> List.Forall P (trace (k a))) ->
  List.Forall P (trace (bind m k)).
Proof.
  intros Hm Hk. destruct m as [tr [a|e]]; cbn in *; [|exact Hm].
  specialize (Hk a eq_refl). destruct (k a) as [tr' r]. cbn in *.
  apply List.Forall_app. split; assumption.
Qed.

Lemma try_except_Forall {A} (P : event -> Prop) (m : M A) (h : exn -> M A) :
  List.Forall P (trace m) -> (forall e, List.Forall P (trace (h e))) ->
  List.Forall P (trace (try_except m h)).
Proof.
  intros Hm Hh. destruct m as [tr [a|e]]; cbn in *; [exact Hm|].
  specialize (Hh e). destruct (h e) as [tr' r]. cbn in *.
  apply List.Forall_app. split; assumption.
Qed.

Lemma emit_Forall (P : event -> Prop) (ev : event) :
  P ev -> List.Forall P (trace (emit ev)).
Proof. intros H. repeat constructor. exact H. Qed.






(** ** Every candidate once *)

Lemma NoDup_map_filter {A B} (f : A -> B) (P : A -> bool) (l : list A) :
  List.NoDup (List.map f l) -> List.NoDup (List.map f (List.filter P l)).
Proof.
  induction l as [|a l IH]; simpl; intros Hnd; [constructor|].
  inversion Hnd as [|? ? Hnotin Hnd']; subst.
  destruct (P a); simpl; [|now apply IH].
  constructor; [|now apply IH].
  intros Hin. apply Hnotin. apply in_map_iff in Hin.
  destruct Hin as (x & Hx & Hin). apply filter_In in Hin.
  apply in_map_iff. exists x. tauto.
Qed.

Lemma NoDup_map_snoc (base : Path) (names : list string) :
  List.NoDup names -> List.NoDup (List.map (fun nm => base ++ [nm]) names).
Proof.
  induction 1 as [|nm names Hnotin Hnd IH]; simpl; constructor; [|exact IH].
  intros Hin. apply in_map_iff in Hin. destruct Hin as (nm' & Heq & Hin).
  apply app_inv_head in Heq. injection Heq as ->. contradiction.
Qed.

Lemma in_rglob_below_path (base : Path) (c : node) (p : Path) :
  In p (List.map fst (rglob_below base c)) ->
  exists rel, rel <> [] /\ p = base ++ node_name c :: rel.
Proof.
  intros Hin. apply in_map_iff in Hin. destruct Hin as ([q k] & <- & Hin).
  apply rglob_below_spec in Hin. destruct Hin as (nm & sub & rel & -> & -> & Hr).
  exists rel. split; [eapply reachable_nonempty; eauto|reflexivity].
Qed.

Lemma rglob_children_NoDup (base : Path) (children : list node) :
  List.NoDup (List.map node_name children) ->
  List.Forall (fun c => forall b, List.NoDup (List.map fst (rglob_below b c))) children ->
  List.NoDup (List.map fst (rglob_children base children)).
Proof.
  intros Hnd Hall. unfold rglob_children. rewrite map_app. apply List.NoDup_app.
  - rewrite map_map. cbn [fst].
    rewrite <- (map_map node_name (fun nm => base ++ [nm])).
    now apply NoDup_map_snoc.
  - clear -Hnd Hall. induction children as [|c cs IH]; simpl; [constructor|].
    inversion Hnd as [|? ? Hnotin Hnd']; subst.
    inversion Hall as [|? ? Hc Hcs]; subst.
    rewrite map_app. apply List.NoDup_app; [apply Hc|now apply IH|].
    intros p Hp Hp'. apply in_rglob_below_path in Hp.
    destruct Hp as (rel & _ & ->).
    apply in_map_iff in Hp'. destruct Hp' as ([q k] & Hq & Hin). cbn in Hq. subst q.
    apply in_flat_map in Hin. destruct Hin as (c' & Hc' & Hin).
    assert (Hin' : In (base ++ node_name c :: rel) (List.map fst (rglob_below base c')))
      by (apply in_map_iff; exists (base ++ node_name c :: rel, k); auto).
    apply in_rglob_below_path in Hin'. destruct Hin' as (rel' & _ & Heq).
    apply app_inv_head in Heq. injection Heq as Hname _.
    apply Hnotin. rewrite Hname. now apply in_map.
  - intros p Hp Hp'. rewrite map_map in Hp. cbn [fst] in Hp.
    apply in_map_iff in Hp. destruct Hp as (c & <- & _).
    apply in_map_iff in Hp'. destruct Hp' as ([q k] & Hq & Hin). cbn in Hq. subst q.
    apply in_flat_map in Hin. destruct Hin as (c' & _ & Hin).
    assert (Hin' : In (base ++ [node_name c]) (List.map fst (rglob_below base c')))
      by (apply in_map_iff; exists (base ++ [node_name c], k); auto).
    apply in_rglob_below_path in Hin'. destruct Hin' as (rel' & Hne & Heq).
    apply app_inv_head in Heq. injection Heq as _ Hrel. now subst rel'.
Qed.

Lemma rglob_below_NoDup (n : node) :
  wf_node n -> forall base, List.NoDup (List.map fst (rglob_below base n)).
Proof.
  induction n as [nm|nm|nm children IH] using node_tree_ind; intros Hwf base.
  - constructor.
  - constructor.
  - rewrite rglob_below_Dir. inversion Hwf as [| |? ? Hnd Hch]; subst.
    apply rglob_children_NoDup; [exact Hnd|].
    rewrite List.Forall_forall in *. intros c Hc b. apply (IH c Hc). now apply Hch.
Qed.

(** In a tree whose directories hold each name once, no candidate is
    listed twice, so every eligible file is uploaded at most once in a
    run. *)
Theorem candidates_distinct (w : world) (self : DocumentProcessor)
    (children : list node) :
  w_stat w (input_dir self) = Some (IsDir children) ->
  List.NoDup (List.map node_name children) ->
  List.Forall wf_node children ->
  List.NoDup (get_all_files w self).
Proof.
  intros Hs Hnd Hwf. unfold get_all_files. rewrite Hs, rglob_IsDir.
  apply NoDup_map_filter. apply rglob_children_NoDup; [exact Hnd|].
  rewrite List.Forall_forall in *. intros c Hc b. apply rglob_below_NoDup.
  now apply Hwf.
Qed.

Lemma candidates_distinct_witness :
  w_stat scenario_world (input_dir scenario_self) = Some (IsDir scenario_tree)
  /\ List.NoDup (get_all_files scenario_world scenario_self).
Proof.
  split; [reflexivity|].
  assert (Hfresh : forall (a : string) (l : list string),
            forallb (fun b => negb (String.eqb a b)) l = true -> ~ In a l).
  { intros a l. induction l as [|b l IH]; simpl; [tauto|].
    intros H [->|Hin]; apply andb_true_iff in H; destruct H as [H1 H2].
    - rewrite String.eqb_refl in H1. discriminate H1.
    - now apply IH. }
  apply (candidates_distinct scenario_world scenario_self scenario_tree eq_refl).
  - simpl. apply List.NoDup_cons; [apply Hfresh; reflexivity|].
    apply List.NoDup_cons; [apply Hfresh; reflexivity|apply List.NoDup_nil].
  - apply List.Forall_cons; [|apply List.Forall_cons; [|apply List.Forall_nil]].
    + apply wf_Dir.
      * simpl. apply List.NoDup_cons; [apply Hfresh; reflexivity|].
        apply List.NoDup_cons; [apply Hfresh; reflexivity|apply List.NoDup_nil].
      * apply List.Forall_cons; [apply wf_File|].
        apply List.Forall_cons; [apply wf_File|apply List.Forall_nil].
    + apply wf_Dir.
      * simpl. apply List.NoDup_cons; [apply Hfresh; reflexivity|apply List.NoDup_nil].
      * apply List.Forall_cons; [apply wf_File|apply List.Forall_nil].
Defined.

(** ** The command line, again *)

(** Both [--api-url] and [--input-dir] are required: when one is left out
    the argument parser reports it and the process exits with status 2
    without touching the file system or the network. *)
Theorem missing_required_option_exit_2 (urlparse : string -> option (string * string))
    (w : world) (c : cmdline) :
  opt_api_url c = None \/ opt_input_dir c = None ->
  snd (main urlparse w c) = 2%Z
  /\ exists msg, fst (main urlparse w c) = [EvStderr ("error: " +:+ msg)].
Proof.
  intros H. unfold main, parse_args.
  destruct (opt_api_url c) as [u|].
  - destruct H as [H|H]; [discriminate|]. rewrite H.
    destruct (validate_url urlparse u); (split; [reflexivity|eauto]).
  - destruct (opt_input_dir c); (split; [reflexivity|eauto]).
Qed.

Lemma missing_required_option_exit_2_witness :
  opt_input_dir {| opt_api_url := Some "http://localhost:8000"; opt_input_dir := None;
                   opt_output_dir := None |} = None
  /\ snd (main Urllib.urlparse scenario_world
            {| opt_api_url := Some "http://localhost:8000"; opt_input_dir := None;
               opt_output_dir := None |}) = 2%Z.
Proof.
  split; [reflexivity|].
  exact (proj1 (missing_required_option_exit_2 Urllib.urlparse scenario_world
                  {| opt_api_url := Some "http://localhost:8000"; opt_input_dir := None;
                     opt_output_dir := None |} (or_intror eq_refl))).
Defined.

Lemma process_directory_starts_with_scan (w : world) (self : DocumentProcessor) :
  exists rest, trace (process_directory w self) = EvScan (input_dir self) :: rest.
Proof.
  unfold process_directory. rewrite bind_emit. cbn [trace fst]. eauto.
Qed.

(** With a well-formed command line and an existing input directory, the
    run first creates [<output>], [<output>/json] and [<output>/markdown],
    with [<output>] the resolved [--output-dir] or, when the option is left
    out, the resolved path of [output]; only then is the input tree
    scanned.  The directories are therefore created even when no file is
    found or processed. *)
Theorem output_tree_created_first (urlparse : string -> option (string * string))
    (w : world) (c : cmdline) (args : namespace) :
  parse_args urlparse c = inr args ->
  is_Some (w_stat w (w_resolve w (ns_input_dir args))) ->
  ns_output_dir args
  = match opt_output_dir c with Some o => o | None => "output" end
  /\ exists rest,
       fst (main urlparse w c)
       = EvMkdir (w_resolve w (ns_output_dir args))
           :: EvMkdir (w_resolve w (ns_output_dir args) ++ ["json"])
           :: EvMkdir (w_resolve w (ns_output_dir args) ++ ["markdown"])
           :: EvPrint ("Input directory: " +:+ render (w_resolve w (ns_input_dir args)))
           :: EvPrint ("Output directory: " +:+ render (w_resolve w (ns_output_dir args)))
           :: EvScan (w_resolve w (ns_input_dir args)) :: rest.
Proof.
  intros Hp Hs. split.
  - unfold parse_args in Hp.
    destruct (opt_api_url c) as [u|]; [destruct (validate_url urlparse u)|];
      destruct (opt_input_dir c); try discriminate; injection Hp as <-; reflexivity.
  - unfold main. rewrite Hp.
    destruct (process_directory_starts_with_scan w (processor_of w args)) as [rest Hr].
    destruct (process_directory w (processor_of w args)) as [tr [[]|e]] eqn:Hd;
      cbn [trace fst] in Hr; subst tr.
    + rewrite (main_run_returned w args _ _ _ (init_exists w args Hs) Hd).
      cbn [fst app input_dir processor_of]. eauto.
    + rewrite (main_run_raised w args _ _ _ _ (init_exists w args Hs) Hd).
      cbn [fst app input_dir processor_of]. eauto.
Qed.

Lemma output_tree_created_first_witness :
  parse_args Urllib.urlparse scenario_cmd
  = inr {| ns_api_url := "http://localhost:8000/"; ns_input_dir := "in";
           ns_output_dir := "output" |}
  /\ exists rest,
       fst (main Urllib.urlparse scenario_world scenario_cmd)
       = EvMkdir ["output"] :: EvMkdir ["output"; "json"]
           :: EvMkdir ["output"; "markdown"]
           :: EvPrint "Input directory: /in" :: EvPrint "Output directory: /output"
           :: EvScan ["in"] :: rest.
Proof.
  assert (H : parse_args Urllib.urlparse scenario_cmd
              = inr {| ns_api_url := "http://localhost:8000/"; ns_input_dir := "in";
                       ns_output_dir := "output" |}) by reflexivity.
  split; [exact H|].
  refine (proj2 (output_tree_created_first Urllib.urlparse scenario_world scenario_cmd
                   _ H _)).
  vm_compute. eexists. reflexivity.
Defined.

(** ** What can leave the loop *)





(** ** A second run on what the first run left *)

Lemma filter_none {A} (f : A -> bool) (l : list A) :
  (forall x, In x l -> f x = false) -> List.filter f l = [].
Proof.
  induction l as [|a l IH]; intros H; [reflexivity|]. simpl.
  rewrite (H a (or_introl eq_refl)). apply IH. intros x Hx. apply H. now right.
Qed.

Section Growth.

Variable new : Path -> Prop.
Hypothesis new_rejected : forall p, new p -> should_process_file p = false.

Let candidate (pk : Path * kind) : bool :=
  is_file (snd pk) && should_process_file (fst pk).

Lemma added_entry_filtered (base : Path) (n : node) :
  (forall p, In (p, KFile) ((base ++ [node_name n], node_kind n) :: rglob_below base n)
             -> new p) ->
  candidate (base ++ [node_name n], node_kind n) = false
  /\ List.filter candidate (rglob_below base n) = [].
Proof.
  intros Hnew.
  assert (H : forall pk,
            In pk ((base ++ [node_name n], node_kind n) :: rglob_below base n) ->
            candidate pk = false).
  { intros [p k] Hin. unfold candidate. cbn [fst snd].
    destruct k; try reflexivity. cbn [is_file andb].
    apply new_rejected, Hnew, Hin. }
  split.
  - apply H. now left.
  - apply filter_none. intros pk Hin. apply H. now right.
Qed.

(** Growth by files that fail the filter changes no candidate, neither
    among the entries of a directory nor below them. *)
Lemma grown_candidates (base : Path) (cs cs' : list node) :
  grown new base cs cs' ->
  List.filter candidate (List.map (fun c => (base ++ [node_name c], node_kind c)) cs')
  = List.filter candidate (List.map (fun c => (base ++ [node_name c], node_kind c)) cs)
  /\ List.filter candidate (List.flat_map (rglob_below base) cs')
     = List.filter candidate (List.flat_map (rglob_below base) cs).
Proof.
  induction 1 as [base
                 |base n cs cs' _ [IHe IHb]
                 |base nm sub sub' cs cs' _ [IHse IHsb] _ [IHe IHb]
                 |base n cs cs' Hnew _ [IHe IHb]].
  - split; reflexivity.
  - split.
    + cbn [List.map List.filter]. rewrite IHe. reflexivity.
    + cbn [List.flat_map]. rewrite !List.filter_app. f_equal. exact IHb.
  - split.
    + cbn [List.map List.filter node_name node_kind]. rewrite IHe. reflexivity.
    + cbn [List.flat_map]. rewrite !rglob_below_Dir. unfold rglob_children.
      rewrite !List.filter_app. f_equal; [f_equal|]; assumption.
  - destruct (added_entry_filtered base n Hnew) as [He Hb]. split.
    + cbn [List.map List.filter]. rewrite He. exact IHe.
    + cbn [List.flat_map]. rewrite List.filter_app, Hb. exact IHb.
Qed.

Lemma get_all_files_grown (w1 w2 : world) (self : DocumentProcessor)
    (cs cs' : list node) :
  w_stat w1 (input_dir self) = Some (IsDir cs) ->
  w_stat w2 (input_dir self) = Some (IsDir cs') ->
  grown new (input_dir self) cs cs' ->
  get_all_files w2 self = get_all_files w1 self.
Proof.
  intros H1 H2 Hg. unfold get_all_files. rewrite H1, H2, !rglob_IsDir.
  unfold rglob_children. fold candidate. rewrite !List.filter_app.
  destruct (grown_candidates _ _ _ Hg) as [He Hb].
  f_equal. f_equal; assumption.
Qed.

End Growth.

Lemma grown_refl (new : Path -> Prop) (cs : list node) :
  forall base, grown new base cs cs.
Proof. induction cs as [|n cs IH]; intros base; constructor; apply IH. Qed.

(** A world is a rerun world of itself: the case of an output directory
    outside the input tree, which a run leaves as it was. *)
Lemma rerun_world_refl (new : Path -> Prop) (input : Path) (w : world) :
  rerun_world new input w w.
Proof.
  split; [reflexivity|]. split; [reflexivity|].
  destruct (w_stat w input) as [[| |cs]|]; try reflexivity.
  exists cs. split; [reflexivity|apply grown_refl].
Qed.

(** No run writes a file that passes the filter. *)
Section WrittenFiles.

Variable Q : Path -> Prop.
Hypothesis artifact_Q :
  forall dir s ext, ext = ".json" \/ ext = ".md" -> Q (dir ++ [s +:+ ext]).

Lemma process_single_file_on_writes (w : world) (self : DocumentProcessor)
    (file_path : Path) :
  List.Forall (on_writes Q) (trace (process_single_file w self file_path)).
Proof.
  unfold process_single_file.
  destruct (w_api w file_path) as [msg|msg|status body].
  - repeat constructor.
  - repeat constructor.
  - destruct (status =? 200)%Z eqn:Hs; [destruct body as [msg|v]|];
      cbn; repeat constructor.
Qed.

Lemma save_outputs_on_writes (self : DocumentProcessor) (file_path : Path) (v : json) :
  List.Forall (on_writes Q) (trace (save_outputs self file_path v)).
Proof.
  destruct (PurePath.relative_to file_path (input_dir self)) as [rel|] eqn:E.
  - apply relative_to_Some in E. subst file_path. rewrite save_outputs_under.
    cbn [trace fst].
    assert (Hm : forall text,
               on_writes Q (EvWrite (md_path self (input_dir self ++ rel) rel) text))
      by (intros text; apply artifact_Q; now right).
    apply List.Forall_cons; [exact I|]. apply List.Forall_cons; [exact I|].
    apply List.Forall_cons; [apply artifact_Q; now left|].
    unfold save_text.
    destruct (Py.contains "text" v) as [e|[|]]; try (cbn; apply List.Forall_nil).
    destruct (Py.getitem "text" v) as [e|[]]; cbn;
      (apply List.Forall_cons; [apply Hm|apply List.Forall_nil]).
  - unfold save_outputs, get_relative_path. rewrite E. apply List.Forall_nil.
Qed.

Lemma process_files_on_writes (w : world) (self : DocumentProcessor)
    (total_files : nat) (files : list Path) :
  forall idx,
    List.Forall (on_writes Q) (trace (process_files w self total_files idx files)).
Proof.
  induction files as [|file_path rest IH]; intros idx; [apply List.Forall_nil|].
  cbn [process_files].
  apply bind_Forall.
  { unfold get_relative_path.
    destruct (PurePath.relative_to file_path (input_dir self)); apply List.Forall_nil. }
  intros rel_path _. apply bind_Forall; [apply emit_Forall; exact I|]. intros _ _.
  apply bind_Forall; [apply process_single_file_on_writes|]. intros response_data _.
  apply bind_Forall; [|intros _ _; apply IH].
  destruct response_data as [v|]; [destruct (Py.truthy v)|];
    try (apply emit_Forall; exact I).
  apply bind_Forall; [apply save_outputs_on_writes|].
  intros _ _. apply emit_Forall. exact I.
Qed.

Lemma main_on_writes (urlparse : string -> option (string * string))
    (w : world) (c : cmdline) :
  List.Forall (on_writes Q) (fst (main urlparse w c)).
Proof.
  unfold main. destruct (parse_args urlparse c) as [msg|args].
  { apply List.Forall_cons; [exact I|apply List.Forall_nil]. }
  assert (H : List.Forall (on_writes Q) (trace (main_run w args))).
  { unfold main_run. apply bind_Forall.
    - apply try_except_Forall.
      + apply bind_Forall.
        * unfold init. case_bool_decide; cbn; [|apply List.Forall_nil].
          repeat (apply List.Forall_cons; [exact I|]). apply List.Forall_nil.
        * intros self _.
          apply bind_Forall; [|intros _ _; apply List.Forall_nil].
          unfold process_directory.
          apply bind_Forall; [apply emit_Forall; exact I|]. intros _ _.
          match goal with
          | |- context [(?n =? 0)%nat] => destruct (n =? 0)%nat
          end; [apply emit_Forall; exact I|].
          apply bind_Forall; [apply emit_Forall; exact I|]. intros _ _.
          apply process_files_on_writes.
      + intros e. destruct e; (apply bind_Forall;
          [apply emit_Forall; exact I|intros _ _; apply List.Forall_nil]).
    - intros [code|] _; apply List.Forall_nil. }
  destruct (main_run w args) as [tr [code|e]]; cbn in *; [exact H|].
  apply List.Forall_app. split; [exact H|].
  apply List.Forall_cons; [exact I|apply List.Forall_nil].
Qed.

End WrittenFiles.

Lemma written_by_rejected (urlparse : string -> option (string * string))
    (w : world) (c : cmdline) (p : Path) :
  written_by (fst (main urlparse w c)) p -> should_process_file p = false.
Proof.
  intros [content Hin].
  pose proof (main_on_writes (fun f => should_process_file f = false)
                artifact_name_rejected urlparse w c) as H.
  rewrite List.Forall_forall in H.
  unfold writes in Hin. apply in_flat_map in Hin. destruct Hin as (ev & Hev & Hin).
  specialize (H ev Hev). destruct ev; cbn in Hin; try contradiction.
  destruct Hin as [[= -> _]|[]]. exact H.
Qed.

Lemma bind_ext_returned {A B} (m : M A) (k1 k2 : A -> M B) :
  (forall a, result m = Returned a -> k1 a = k2 a) -> bind m k1 = bind m k2.
Proof.
  intros H. destruct m as [tr [a|e]]; simpl; [|reflexivity].
  now rewrite (H a eq_refl).
Qed.

Lemma process_single_file_same_api (w1 w2 : world) (self : DocumentProcessor)
    (file_path : Path) :
  w_api w2 file_path = w_api w1 file_path ->
  process_single_file w2 self file_path = process_single_file w1 self file_path.
Proof. intros H. unfold process_single_file. rewrite H. reflexivity. Qed.

Lemma process_files_same_api (w1 w2 : world) (self : DocumentProcessor)
    (total_files : nat) (files : list Path) :
  (forall p, w_api w2 p = w_api w1 p) ->
  forall idx, process_files w2 self total_files idx files
              = process_files w1 self total_files idx files.
Proof.
  intros Ha. induction files as [|file_path rest IH]; intros idx; [reflexivity|].
  cbn [process_files].
  apply bind_ext. intros rel_path. apply bind_ext. intros _.
  rewrite (process_single_file_same_api w1 w2 self file_path (Ha file_path)).
  apply bind_ext. intros response_data. apply bind_ext. intros _. apply IH.
Qed.

Section Rerun.

Variable new : Path -> Prop.
Hypothesis new_rejected : forall p, new p -> should_process_file p = false.

Variables w1 w2 : world.

Lemma get_all_files_rerun (self : DocumentProcessor) :
  rerun_world new (input_dir self) w1 w2 ->
  get_all_files w2 self = get_all_files w1 self.
Proof.
  intros (_ & _ & Hs).
  destruct (w_stat w1 (input_dir self)) as [[| |cs]|] eqn:E.
  - unfold get_all_files. rewrite Hs, E. reflexivity.
  - unfold get_all_files. rewrite Hs, E. reflexivity.
  - destruct Hs as (cs' & E' & Hg).
    exact (get_all_files_grown new new_rejected w1 w2 self cs cs' E E' Hg).
  - unfold get_all_files. rewrite Hs, E. reflexivity.
Qed.

Lemma process_directory_rerun (self : DocumentProcessor) :
  rerun_world new (input_dir self) w1 w2 ->
  process_directory w2 self = process_directory w1 self.
Proof.
  intros Hw. unfold process_directory. rewrite (get_all_files_rerun self Hw).
  destruct Hw as (_ & Ha & _).
  apply bind_ext. intros _.
  destruct (length (get_all_files w1 self) =? 0)%nat; [reflexivity|].
  apply bind_ext. intros _. apply process_files_same_api. exact Ha.
Qed.

Lemma init_rerun (url input output : string) :
  rerun_world new (w_resolve w1 input) w1 w2 ->
  init w2 url input output = init w1 url input output.
Proof.
  intros (Hr & _ & Hs). unfold init. rewrite !Hr.
  assert (Hb : bool_decide (is_Some (w_stat w2 (w_resolve w1 input)))
               = bool_decide (is_Some (w_stat w1 (w_resolve w1 input)))).
  { apply bool_decide_ext.
    destruct (w_stat w1 (w_resolve w1 input)) as [[| |cs]|].
    - rewrite Hs. reflexivity.
    - rewrite Hs. reflexivity.
    - destruct Hs as (cs' & -> & _). split; intros _; eexists; reflexivity.
    - rewrite Hs. reflexivity. }
  rewrite Hb. reflexivity.
Qed.

Lemma main_run_rerun (args : namespace) :
  rerun_world new (w_resolve w1 (ns_input_dir args)) w1 w2 ->
  main_run w2 args = main_run w1 args.
Proof.
  intros Hw. unfold main_run. rewrite (init_rerun _ _ _ Hw).
  match goal with
  | |- bind (try_except ?a _) _ = bind (try_except ?b _) _ =>
      assert (Hbody : a = b); [|rewrite Hbody; reflexivity]
  end.
  apply bind_ext_returned. intros self Hself.
  apply init_returned in Hself. destruct Hself as [Hself _].
  rewrite process_directory_rerun; [reflexivity|].
  rewrite Hself. exact Hw.
Qed.

End Rerun.

(** ** C8: a second run *)

(** C8: running the tool a second time, on the file system the first run
    left and with an API that answers as before, repeats the first run:
    the same events, so the same structured and text artifacts with the
    same bytes at the same paths, and the same exit status; the output
    tree after the second run is the output tree after the first, each
    artifact overwritten by itself.  The file system the first run left
    need not show the input directory as it was: with the output directory
    inside the input directory the first run's directories and files are
    found by the second walk, and dropped by the filter, for no artifact
    has an accepted extension. *)
Theorem C8_rerun_identical (urlparse : string -> option (string * string))
    (w1 w2 : world) (c : cmdline) (s : store) :
  (forall args, parse_args urlparse c = inr args ->
     rerun_world (written_by (fst (main urlparse w1 c)))
       (w_resolve w1 (ns_input_dir args)) w1 w2) ->
  main urlparse w2 c = main urlparse w1 c
  /\ writes (fst (main urlparse w2 c)) = writes (fst (main urlparse w1 c))
  /\ replay (fst (main urlparse w2 c)) (replay (fst (main urlparse w1 c)) s)
     = replay (fst (main urlparse w1 c)) s.
Proof.
  intros Hw.
  assert (E : main urlparse w2 c = main urlparse w1 c).
  { unfold main. destruct (parse_args urlparse c) as [msg|args] eqn:Hp; [reflexivity|].
    rewrite (main_run_rerun (written_by (fst (main urlparse w1 c)))
               (written_by_rejected urlparse w1 c) w1 w2 args (Hw args eq_refl)).
    reflexivity. }
  rewrite E. split; [reflexivity|]. split; [reflexivity|]. apply replay_idempotent.
Qed.

Lemma C8_rerun_identical_witness :
  main Urllib.urlparse (nested_world nested_tree_after) nested_cmd
  = main Urllib.urlparse (nested_world nested_tree_before) nested_cmd
  /\ writes (fst (main Urllib.urlparse (nested_world nested_tree_after) nested_cmd))
     = writes (fst (main Urllib.urlparse (nested_world nested_tree_before) nested_cmd))
  /\ replay (fst (main Urllib.urlparse (nested_world nested_tree_after) nested_cmd))
       (replay (fst (main Urllib.urlparse (nested_world nested_tree_before) nested_cmd)) ∅)
     = replay (fst (main Urllib.urlparse (nested_world nested_tree_before) nested_cmd)) ∅.
Proof.
  apply (C8_rerun_identical Urllib.urlparse (nested_world nested_tree_before)
           (nested_world nested_tree_after) nested_cmd ∅).
  intros args Hargs. vm_compute in Hargs. injection Hargs as <-.
  split; [reflexivity|]. split; [reflexivity|].
  exists nested_tree_after. split; [reflexivity|].
  apply grown_same. apply grown_add; [|apply grown_nil].
  intros p Hin. vm_compute in Hin.
  destruct Hin as [Hin|[Hin|[Hin|[Hin|[Hin|[Hin|[Hin|[Hin|[]]]]]]]]];
    try discriminate Hin; injection Hin as <-;
    eexists; vm_compute; tauto.
Defined.
